(** * firm_GDP.py: the GDP extract / transform / load script

    A shallow embedding of [src/firm_GDP.py] and the properties of its
    extractor, transformer and query step.

    - Python [float] and [numpy.float64] are IEEE-754 binary64 numbers; they
      are modelled by [spec_float] with precision 53 and [emax] 1024, so
      every arithmetic step rounds as the hardware does.
    - Python [str] values are modelled by [string] (UTF-8 bytes).
    - A parsed page (BeautifulSoup) is a tree of [Tag]s and
      [NavigableString]s.
    - A pandas DataFrame is a mutable object: frames live in a store and the
      program handles references into it.
    - Effects on the outside world (HTTP, files, database, log) are recorded
      in a trace. *)

From Stdlib Require Import ZArith List String Ascii Bool Lia.
From Stdlib Require Import Floats.SpecFloat.
From stdpp Require Import base list strings pretty.

Local Open Scope string_scope.
Local Open Scope list_scope.
Local Open Scope Z_scope.

(** ** Outcomes of a Python computation *)

(** The exceptions the script can raise.  [Exception] is the bare
    [Exception(msg)] of [extract]; the others are raised by the builtins. *)
Inductive exn : Type :=
| Exception (msg : string)
| IndexError
| KeyError (key : string)
| ValueError
| AttributeError.

(** A computation returns, raises, or takes a library path this development
    does not model ([OutOfModel]): no statement is made about such runs. *)
Inductive result (A : Type) : Type :=
| Return (a : A)
| Raise (e : exn)
| OutOfModel.
Arguments Return {A} a.
Arguments Raise {A} e.
Arguments OutOfModel {A}.

(** ** Binary64 arithmetic *)

Module Float.

Definition prec : Z := 53.
Definition emax : Z := 1024.

Definition float : Type := spec_float.

Definition mul (x y : float) : float := SFmul prec emax x y.
Definition div (x y : float) : float := SFdiv prec emax x y.

(** [float(n)] for a Python [int] literal [n]. *)
Definition of_Z (n : Z) : float := binary_normalize prec emax n 0 false.

(** The quotient [num / den] of two positive integers, rounded once to the
    nearest binary64 (ties to even), with sign [s]. *)
Definition of_ratio (s : bool) (num den : positive) : float :=
  let '(q, e, l) := SFdiv_core_binary prec emax (Zpos num) 0 (Zpos den) 0 in
  binary_round_aux prec emax s q e l.

(** [m * 10^k] with sign [s], rounded once: the value of a decimal literal. *)
Definition of_decimal (s : bool) (m : Z) (k : Z) : float :=
  match m with
  | Zpos p =>
      match k with
      | Z0 => of_ratio s p 1
      | Zpos k' => of_ratio s (p * Pos.pow 10 k') 1
      | Zneg k' => of_ratio s p (Pos.pow 10 k')
      end
  | _ => S754_zero s
  end.

(** C [rint] in the default rounding mode: the nearest integer, ties to even;
    the sign is kept, also on a zero result. *)
Definition rint (x : float) : float :=
  match x with
  | S754_finite s m e =>
      if 0 <=? e then x
      else
        let d := Z.pow 2 (- e) in
        let q := Z.div (Zpos m) d in
        let r := Z.modulo (Zpos m) d in
        let n := match Z.compare (2 * r) d with
                 | Lt => q
                 | Gt => q + 1
                 | Eq => if Z.even q then q else q + 1
                 end in
        binary_normalize prec emax (if s then - n else n) 0 s
  | _ => x
  end.

End Float.

Abbreviation float := Float.float.

(** [numpy.round(x, decimals)] on a float, for [decimals > 0]: numpy scales
    by the power of ten, rounds to an integer with [rint] and scales back
    ([PyArray_Round]).  For [decimals = 0] it is [rint] alone. *)
Definition np_round (x : float) (decimals : nat) : float :=
  match decimals with
  | O => Float.rint x
  | _ =>
      let f := Float.of_Z (10 ^ Z.of_nat decimals) in
      Float.div (Float.rint (Float.mul x f)) f
  end.

(** ** Strings *)

(** [x.split(sep)] for a one-character separator. *)
Fixpoint str_split (sep : ascii) (x : string) : list string :=
  match x with
  | EmptyString => [EmptyString]
  | String c x' =>
      if Ascii.eqb c sep then EmptyString :: str_split sep x'
      else match str_split sep x' with
           | hd :: tl => String c hd :: tl
           | [] => [String c EmptyString]
           end
  end.

(** [sep.join(parts)]. *)
Definition str_join (sep : string) (parts : list string) : string :=
  String.concat sep parts.

(** ** [float(s)] on a string *)

Module PyFloat.

Definition code (c : ascii) : N := N_of_ascii c.

Definition is_digit (c : ascii) : bool :=
  ((48 <=? code c) && (code c <=? 57))%N.

Definition digit_value (c : ascii) : Z := Z.of_N (code c) - 48.

(** [Py_ISSPACE]: tab, newline, vertical tab, form feed, return, space. *)
Definition is_space (c : ascii) : bool :=
  (((9 <=? code c) && (code c <=? 13)) || (code c =? 32))%N.

(** Unicode 14.0, the tables of CPython 3.11.  The white space outside
    ASCII ([str.isspace]), as ranges. *)
Definition unicode_spaces : list (N * N) :=
  [
   (133, 133); (160, 160); (5760, 5760); (8192, 8202); (8232, 8233); (8239,
   8239); (8287, 8287); (12288, 12288)
  ]%N.

(** The code points of the digits zero: each starts a run of the ten decimal
    digits of a script. *)
Definition decimal_zeros : list N :=
  [
   1632; 1776; 1984; 2406; 2534; 2662; 2790; 2918; 3046; 3174; 3302; 3430;
   3558; 3664; 3792; 3872; 4160; 4240; 6112; 6160; 6470; 6608; 6784; 6800;
   6992; 7088; 7232; 7248; 42528; 43216; 43264; 43472; 43504; 43600; 44016;
   65296; 66720; 68912; 69734; 69872; 69942; 70096; 70384; 70736; 70864;
   71248; 71360; 71472; 71904; 72016; 72784; 73040; 73120; 92768; 92864;
   93008; 120782; 120792; 120802; 120812; 120822; 123200; 123632; 125264;
   130032
  ]%N.

(** The ranges of code points that Unicode 14.0 leaves unassigned: later
    versions may make digits of them, so the model is silent there. *)
Definition unassigned : list (N * N) :=
  [
   (888, 889); (896, 899); (907, 907); (909, 909); (930, 930); (1328, 1328);
   (1367, 1368); (1419, 1420); (1424, 1424); (1480, 1487); (1515, 1518);
   (1525, 1535); (1806, 1806); (1867, 1868); (1970, 1983); (2043, 2044);
   (2094, 2095); (2111, 2111); (2140, 2141); (2143, 2143); (2155, 2159);
   (2191, 2191); (2194, 2199); (2436, 2436); (2445, 2446); (2449, 2450);
   (2473, 2473); (2481, 2481); (2483, 2485); (2490, 2491); (2501, 2502);
   (2505, 2506); (2511, 2518); (2520, 2523); (2526, 2526); (2532, 2533);
   (2559, 2560); (2564, 2564); (2571, 2574); (2577, 2578); (2601, 2601);
   (2609, 2609); (2612, 2612); (2615, 2615); (2618, 2619); (2621, 2621);
   (2627, 2630); (2633, 2634); (2638, 2640); (2642, 2648); (2653, 2653);
   (2655, 2661); (2679, 2688); (2692, 2692); (2702, 2702); (2706, 2706);
   (2729, 2729); (2737, 2737); (2740, 2740); (2746, 2747); (2758, 2758);
   (2762, 2762); (2766, 2767); (2769, 2783); (2788, 2789); (2802, 2808);
   (2816, 2816); (2820, 2820); (2829, 2830); (2833, 2834); (2857, 2857);
   (2865, 2865); (2868, 2868); (2874, 2875); (2885, 2886); (2889, 2890);
   (2894, 2900); (2904, 2907); (2910, 2910); (2916, 2917); (2936, 2945);
   (2948, 2948); (2955, 2957); (2961, 2961); (2966, 2968); (2971, 2971);
   (2973, 2973); (2976, 2978); (2981, 2983); (2987, 2989); (3002, 3005);
   (3011, 3013); (3017, 3017); (3022, 3023); (3025, 3030); (3032, 3045);
   (3067, 3071); (3085, 3085); (3089, 3089); (3113, 3113); (3130, 3131);
   (3141, 3141); (3145, 3145); (3150, 3156); (3159, 3159); (3163, 3164);
   (3166, 3167); (3172, 3173); (3184, 3190); (3213, 3213); (3217, 3217);
   (3241, 3241); (3252, 3252); (3258, 3259); (3269, 3269); (3273, 3273);
   (3278, 3284); (3287, 3292); (3295, 3295); (3300, 3301); (3312, 3312);
   (3315, 3327); (3341, 3341); (3345, 3345); (3397, 3397); (3401, 3401);
   (3408, 3411); (3428, 3429); (3456, 3456); (3460, 3460); (3479, 3481);
   (3506, 3506); (3516, 3516); (3518, 3519); (3527, 3529); (3531, 3534);
   (3541, 3541); (3543, 3543); (3552, 3557); (3568, 3569); (3573, 3584);
   (3643, 3646); (3676, 3712); (3715, 3715); (3717, 3717); (3723, 3723);
   (3748, 3748); (3750, 3750); (3774, 3775); (3781, 3781); (3783, 3783);
   (3790, 3791); (3802, 3803); (3808, 3839); (3912, 3912); (3949, 3952);
   (3992, 3992); (4029, 4029); (4045, 4045); (4059, 4095); (4294, 4294);
   (4296, 4300); (4302, 4303); (4681, 4681); (4686, 4687); (4695, 4695);
   (4697, 4697); (4702, 4703); (4745, 4745); (4750, 4751); (4785, 4785);
   (4790, 4791); (4799, 4799); (4801, 4801); (4806, 4807); (4823, 4823);
   (4881, 4881); (4886, 4887); (4955, 4956); (4989, 4991); (5018, 5023);
   (5110, 5111); (5118, 5119); (5789, 5791); (5881, 5887); (5910, 5918);
   (5943, 5951); (5972, 5983); (5997, 5997); (6001, 6001); (6004, 6015);
   (6110, 6111); (6122, 6127); (6138, 6143); (6170, 6175); (6265, 6271);
   (6315, 6319); (6390, 6399); (6431, 6431); (6444, 6447); (6460, 6463);
   (6465, 6467); (6510, 6511); (6517, 6527); (6572, 6575); (6602, 6607);
   (6619, 6621); (6684, 6685); (6751, 6751); (6781, 6782); (6794, 6799);
   (6810, 6815); (6830, 6831); (6863, 6911); (6989, 6991); (7039, 7039);
   (7156, 7163); (7224, 7226); (7242, 7244); (7305, 7311); (7355, 7356);
   (7368, 7375); (7419, 7423); (7958, 7959); (7966, 7967); (8006, 8007);
   (8014, 8015); (8024, 8024); (8026, 8026); (8028, 8028); (8030, 8030);
   (8062, 8063); (8117, 8117); (8133, 8133); (8148, 8149); (8156, 8156);
   (8176, 8177); (8181, 8181); (8191, 8191); (8293, 8293); (8306, 8307);
   (8335, 8335); (8349, 8351); (8385, 8399); (8433, 8447); (8588, 8591);
   (9255, 9279); (9291, 9311); (11124, 11125); (11158, 11158); (11508,
   11512); (11558, 11558); (11560, 11564); (11566, 11567); (11624, 11630);
   (11633, 11646); (11671, 11679); (11687, 11687); (11695, 11695); (11703,
   11703); (11711, 11711); (11719, 11719); (11727, 11727); (11735, 11735);
   (11743, 11743); (11870, 11903); (11930, 11930); (12020, 12031); (12246,
   12271); (12284, 12287); (12352, 12352); (12439, 12440); (12544, 12548);
   (12592, 12592); (12687, 12687); (12772, 12783); (12831, 12831); (42125,
   42127); (42183, 42191); (42540, 42559); (42744, 42751); (42955, 42959);
   (42962, 42962); (42964, 42964); (42970, 42993); (43053, 43055); (43066,
   43071); (43128, 43135); (43206, 43213); (43226, 43231); (43348, 43358);
   (43389, 43391); (43470, 43470); (43482, 43485); (43519, 43519); (43575,
   43583); (43598, 43599); (43610, 43611); (43715, 43738); (43767, 43776);
   (43783, 43784); (43791, 43792); (43799, 43807); (43815, 43815); (43823,
   43823); (43884, 43887); (44014, 44015); (44026, 44031); (55204, 55215);
   (55239, 55242); (55292, 55295); (64110, 64111); (64218, 64255); (64263,
   64274); (64280, 64284); (64311, 64311); (64317, 64317); (64319, 64319);
   (64322, 64322); (64325, 64325); (64451, 64466); (64912, 64913); (64968,
   64974); (64976, 65007); (65050, 65055); (65107, 65107); (65127, 65127);
   (65132, 65135); (65141, 65141); (65277, 65278); (65280, 65280); (65471,
   65473); (65480, 65481); (65488, 65489); (65496, 65497); (65501, 65503);
   (65511, 65511); (65519, 65528); (65534, 65535); (65548, 65548); (65575,
   65575); (65595, 65595); (65598, 65598); (65614, 65615); (65630, 65663);
   (65787, 65791); (65795, 65798); (65844, 65846); (65935, 65935); (65949,
   65951); (65953, 65999); (66046, 66175); (66205, 66207); (66257, 66271);
   (66300, 66303); (66340, 66348); (66379, 66383); (66427, 66431); (66462,
   66462); (66500, 66503); (66518, 66559); (66718, 66719); (66730, 66735);
   (66772, 66775); (66812, 66815); (66856, 66863); (66916, 66926); (66939,
   66939); (66955, 66955); (66963, 66963); (66966, 66966); (66978, 66978);
   (66994, 66994); (67002, 67002); (67005, 67071); (67383, 67391); (67414,
   67423); (67432, 67455); (67462, 67462); (67505, 67505); (67515, 67583);
   (67590, 67591); (67593, 67593); (67638, 67638); (67641, 67643); (67645,
   67646); (67670, 67670); (67743, 67750); (67760, 67807); (67827, 67827);
   (67830, 67834); (67868, 67870); (67898, 67902); (67904, 67967); (68024,
   68027); (68048, 68049); (68100, 68100); (68103, 68107); (68116, 68116);
   (68120, 68120); (68150, 68151); (68155, 68158); (68169, 68175); (68185,
   68191); (68256, 68287); (68327, 68330); (68343, 68351); (68406, 68408);
   (68438, 68439); (68467, 68471); (68498, 68504); (68509, 68520); (68528,
   68607); (68681, 68735); (68787, 68799); (68851, 68857); (68904, 68911);
   (68922, 69215); (69247, 69247); (69290, 69290); (69294, 69295); (69298,
   69375); (69416, 69423); (69466, 69487); (69514, 69551); (69580, 69599);
   (69623, 69631); (69710, 69713); (69750, 69758); (69827, 69836); (69838,
   69839); (69865, 69871); (69882, 69887); (69941, 69941); (69960, 69967);
   (70007, 70015); (70112, 70112); (70133, 70143); (70162, 70162); (70207,
   70271); (70279, 70279); (70281, 70281); (70286, 70286); (70302, 70302);
   (70314, 70319); (70379, 70383); (70394, 70399); (70404, 70404); (70413,
   70414); (70417, 70418); (70441, 70441); (70449, 70449); (70452, 70452);
   (70458, 70458); (70469, 70470); (70473, 70474); (70478, 70479); (70481,
   70486); (70488, 70492); (70500, 70501); (70509, 70511); (70517, 70655);
   (70748, 70748); (70754, 70783); (70856, 70863); (70874, 71039); (71094,
   71095); (71134, 71167); (71237, 71247); (71258, 71263); (71277, 71295);
   (71354, 71359); (71370, 71423); (71451, 71452); (71468, 71471); (71495,
   71679); (71740, 71839); (71923, 71934); (71943, 71944); (71946, 71947);
   (71956, 71956); (71959, 71959); (71990, 71990); (71993, 71994); (72007,
   72015); (72026, 72095); (72104, 72105); (72152, 72153); (72165, 72191);
   (72264, 72271); (72355, 72367); (72441, 72703); (72713, 72713); (72759,
   72759); (72774, 72783); (72813, 72815); (72848, 72849); (72872, 72872);
   (72887, 72959); (72967, 72967); (72970, 72970); (73015, 73017); (73019,
   73019); (73022, 73022); (73032, 73039); (73050, 73055); (73062, 73062);
   (73065, 73065); (73103, 73103); (73106, 73106); (73113, 73119); (73130,
   73439); (73465, 73647); (73649, 73663); (73714, 73726); (74650, 74751);
   (74863, 74863); (74869, 74879); (75076, 77711); (77811, 77823); (78895,
   78895); (78905, 82943); (83527, 92159); (92729, 92735); (92767, 92767);
   (92778, 92781); (92863, 92863); (92874, 92879); (92910, 92911); (92918,
   92927); (92998, 93007); (93018, 93018); (93026, 93026); (93048, 93052);
   (93072, 93759); (93851, 93951); (94027, 94030); (94088, 94094); (94112,
   94175); (94181, 94191); (94194, 94207); (100344, 100351); (101590,
   101631); (101641, 110575); (110580, 110580); (110588, 110588); (110591,
   110591); (110883, 110927); (110931, 110947); (110952, 110959); (111356,
   113663); (113771, 113775); (113789, 113791); (113801, 113807); (113818,
   113819); (113828, 118527); (118574, 118575); (118599, 118607); (118724,
   118783); (119030, 119039); (119079, 119080); (119275, 119295); (119366,
   119519); (119540, 119551); (119639, 119647); (119673, 119807); (119893,
   119893); (119965, 119965); (119968, 119969); (119971, 119972); (119975,
   119976); (119981, 119981); (119994, 119994); (119996, 119996); (120004,
   120004); (120070, 120070); (120075, 120076); (120085, 120085); (120093,
   120093); (120122, 120122); (120127, 120127); (120133, 120133); (120135,
   120137); (120145, 120145); (120486, 120487); (120780, 120781); (121484,
   121498); (121504, 121504); (121520, 122623); (122655, 122879); (122887,
   122887); (122905, 122906); (122914, 122914); (122917, 122917); (122923,
   123135); (123181, 123183); (123198, 123199); (123210, 123213); (123216,
   123535); (123567, 123583); (123642, 123646); (123648, 124895); (124903,
   124903); (124908, 124908); (124911, 124911); (124927, 124927); (125125,
   125126); (125143, 125183); (125260, 125263); (125274, 125277); (125280,
   126064); (126133, 126208); (126270, 126463); (126468, 126468); (126496,
   126496); (126499, 126499); (126501, 126502); (126504, 126504); (126515,
   126515); (126520, 126520); (126522, 126522); (126524, 126529); (126531,
   126534); (126536, 126536); (126538, 126538); (126540, 126540); (126544,
   126544); (126547, 126547); (126549, 126550); (126552, 126552); (126554,
   126554); (126556, 126556); (126558, 126558); (126560, 126560); (126563,
   126563); (126565, 126566); (126571, 126571); (126579, 126579); (126584,
   126584); (126589, 126589); (126591, 126591); (126602, 126602); (126620,
   126624); (126628, 126628); (126634, 126634); (126652, 126703); (126706,
   126975); (127020, 127023); (127124, 127135); (127151, 127152); (127168,
   127168); (127184, 127184); (127222, 127231); (127406, 127461); (127491,
   127503); (127548, 127551); (127561, 127567); (127570, 127583); (127590,
   127743); (128728, 128732); (128749, 128751); (128765, 128767); (128884,
   128895); (128985, 128991); (129004, 129007); (129009, 129023); (129036,
   129039); (129096, 129103); (129114, 129119); (129160, 129167); (129198,
   129199); (129202, 129279); (129620, 129631); (129646, 129647); (129653,
   129655); (129661, 129663); (129671, 129679); (129709, 129711); (129723,
   129727); (129734, 129743); (129754, 129759); (129768, 129775); (129783,
   129791); (129939, 129939); (129995, 130031); (130042, 131071); (173792,
   173823); (177977, 177983); (178206, 178207); (183970, 183983); (191457,
   194559); (195102, 196607); (201547, 917504); (917506, 917535); (917632,
   917759); (918000, 983039); (1048574, 1048575); (1114110, 1114111)
  ]%N.

Definition in_ranges (rs : list (N * N)) (cp : N) : bool :=
  existsb (fun r => (fst r <=? cp) && (cp <=? snd r))%N rs.

(** [Py_UNICODE_TODECIMAL] outside ASCII. *)
Definition unicode_decimal (cp : N) : option N :=
  match List.find (fun z => (z <=? cp) && (cp <? z + 10))%N decimal_zeros with
  | Some z => Some (cp - z)%N
  | None => None
  end.

Definition continuation (b : ascii) : bool :=
  ((128 <=? code b) && (code b <=? 191))%N.

(** The code points of a string held as UTF-8; [None] when the bytes are
    not the encoding of a string. *)
Fixpoint utf8_decode (l : list ascii) : option (list N) :=
  match l with
  | [] => Some []
  | b0 :: l1 =>
      let c0 := code b0 in
      if (c0 <? 128)%N then option_map (cons c0) (utf8_decode l1)
      else if ((194 <=? c0) && (c0 <=? 223))%N then
        match l1 with
        | b1 :: l2 =>
            if continuation b1 then
              option_map (cons ((c0 - 192) * 64 + (code b1 - 128))%N)
                (utf8_decode l2)
            else None
        | _ => None
        end
      else if ((224 <=? c0) && (c0 <=? 239))%N then
        match l1 with
        | b1 :: b2 :: l3 =>
            let cp := ((c0 - 224) * 4096 + (code b1 - 128) * 64
                       + (code b2 - 128))%N in
            if continuation b1 && continuation b2 && (2048 <=? cp)%N
               && negb ((55296 <=? cp) && (cp <=? 57343))%N then
              option_map (cons cp) (utf8_decode l3)
            else None
        | _ => None
        end
      else if ((240 <=? c0) && (c0 <=? 244))%N then
        match l1 with
        | b1 :: b2 :: b3 :: l4 =>
            let cp := ((c0 - 240) * 262144 + (code b1 - 128) * 4096
                       + (code b2 - 128) * 64 + (code b3 - 128))%N in
            if continuation b1 && continuation b2 && continuation b3
               && (65536 <=? cp)%N && (cp <=? 1114111)%N then
              option_map (cons cp) (utf8_decode l4)
            else None
        | _ => None
        end
      else None
  end.

(** [_PyUnicode_TransformDecimalAndSpaceToASCII] on a string that is not
    ASCII: white space becomes a space, a decimal digit its ASCII digit, and
    the first other character a question mark at which the string is cut.
    [None] on an unassigned code point. *)
Fixpoint transform_decimal_and_space (l : list N) : option (list ascii) :=
  match l with
  | [] => Some []
  | ch :: l' =>
      if (ch <? 127)%N then
        option_map (cons (ascii_of_N ch)) (transform_decimal_and_space l')
      else if in_ranges unicode_spaces ch then
        option_map (cons " "%char) (transform_decimal_and_space l')
      else
        match unicode_decimal ch with
        | Some d =>
            option_map (cons (ascii_of_N (48 + d))) (transform_decimal_and_space l')
        | None => if in_ranges unassigned ch then None else Some ["?"%char]
        end
  end.

Definition is_ascii (c : ascii) : bool := (code c <? 128)%N.

(** The ASCII string [float] parses: the string itself when it is ASCII,
    its transform otherwise.  [None] where the model is silent: bytes that
    encode no string, or an unassigned code point. *)
Definition ascii_form (l : list ascii) : option (list ascii) :=
  if forallb is_ascii l then Some l
  else match utf8_decode l with
       | Some cps => transform_decimal_and_space cps
       | None => None
       end.

Definition lower (c : ascii) : ascii :=
  if ((65 <=? code c) && (code c <=? 90))%N then ascii_of_N (code c + 32) else c.

Fixpoint span_digits (l : list ascii) : list ascii * list ascii :=
  match l with
  | c :: l' =>
      if is_digit c then let '(ds, r) := span_digits l' in (c :: ds, r)
      else ([], l)
  | [] => ([], [])
  end.

Definition digits_to_Z (ds : list ascii) : Z :=
  fold_left (fun acc c => 10 * acc + digit_value c) ds 0.

Fixpoint drop_spaces (l : list ascii) : list ascii :=
  match l with
  | c :: l' => if is_space c then drop_spaces l' else l
  | [] => []
  end.

Definition strip (l : list ascii) : list ascii :=
  rev (drop_spaces (rev (drop_spaces l))).

(** An underscore is allowed only between two digits; [prev] is the
    previous character. *)
Fixpoint underscores_ok (prev : option ascii) (l : list ascii) : bool :=
  match l with
  | [] => match prev with
          | Some p => negb (Ascii.eqb p "_")
          | None => true
          end
  | c :: l' =>
      let after_digit := match prev with Some p => is_digit p | None => false end in
      let after_underscore :=
        match prev with Some p => Ascii.eqb p "_" | None => false end in
      (if Ascii.eqb c "_" then after_digit
       else negb after_underscore || is_digit c)
      && underscores_ok (Some c) l'
  end.

Definition remove_underscores (l : list ascii) : list ascii :=
  List.filter (fun c => negb (Ascii.eqb c "_")) l.

(** An optional sign: [true] for a minus. *)
Definition take_sign (l : list ascii) : bool * list ascii :=
  match l with
  | c :: l' =>
      if Ascii.eqb c "-" then (true, l')
      else if Ascii.eqb c "+" then (false, l')
      else (false, l)
  | [] => (false, [])
  end.

(** [inf], [infinity] and [nan], in any case. *)
Definition inf_or_nan (s : bool) (l : list ascii) : option float :=
  let w := string_of_list_ascii (map lower l) in
  if String.eqb w "inf" || String.eqb w "infinity" then Some (S754_infinity s)
  else if String.eqb w "nan" then Some S754_nan
  else None.

(** [digits [. digits] | . digits], then an optional exponent; nothing may
    follow. *)
Definition number (s : bool) (l : list ascii) : option float :=
  let '(ip, r1) := span_digits l in
  let '(fp, r2) :=
    match r1 with
    | c :: r => if Ascii.eqb c "." then span_digits r else ([], r1)
    | [] => ([], r1)
    end in
  match ip ++ fp with
  | [] => None
  | ds =>
      let m := digits_to_Z ds in
      let shift := - Z.of_nat (length fp) in
      match r2 with
      | [] => Some (Float.of_decimal s m shift)
      | c :: r =>
          if Ascii.eqb (lower c) "e" then
            let '(es, r') := take_sign r in
            match span_digits r' with
            | ((_ :: _) as ed, []) =>
                let e := digits_to_Z ed in
                Some (Float.of_decimal s m ((if es then - e else e) + shift))
            | _ => None
            end
          else None
      end
  end.

Definition parse (l : list ascii) : option float :=
  if underscores_ok None l then
    let '(s, body) := take_sign (strip (remove_underscores l)) in
    match inf_or_nan s body with
    | Some f => Some f
    | None => number s body
    end
  else None.

End PyFloat.

(** [float(s)]: the parsed number, or [ValueError]. *)
Definition py_float (s : string) : result float :=
  match PyFloat.ascii_form (list_ascii_of_string s) with
  | Some l =>
      match PyFloat.parse l with
      | Some f => Return f
      | None => Raise ValueError
      end
  | None => OutOfModel
  end.

(** ** The parsed page (BeautifulSoup) *)

(** A page element is a string of text or a tag with attributes and
    children.  The [BeautifulSoup] object itself is a tag. *)
#[local] Set Warnings "-register-all".
Inductive node : Type :=
| NavigableString (s : string)
| Tag (name : string) (attrs : list (string * string)) (contents : list node).

(** [tag.contents] *)
Definition contents (n : node) : list node :=
  match n with
  | Tag _ _ cs => cs
  | NavigableString _ => []
  end.

(** [tag.descendants]: every element below the tag, in document order. *)
Fixpoint descendants (n : node) : list node :=
  match n with
  | NavigableString _ => []
  | Tag _ _ cs =>
      (fix children (l : list node) : list node :=
         match l with
         | [] => []
         | c :: l' => c :: descendants c ++ children l'
         end) cs
  end.

Definition is_tag (name : string) (n : node) : bool :=
  match n with
  | Tag nm _ _ => String.eqb nm name
  | NavigableString _ => false
  end.

(** [tag.find_all(name)] *)
Definition find_all (name : string) (n : node) : list node :=
  List.filter (is_tag name) (descendants n).

(** [tag.find(name)], also written [tag.name]: the first match or [None]. *)
Definition find (name : string) (n : node) : option node :=
  head (find_all name n).

(** [child == x] for a [str] [x]: a text node compares as a string, a tag
    is never equal to a string. *)
Definition node_eq_str (child : node) (x : string) : bool :=
  match child with
  | NavigableString s => String.eqb s x
  | Tag _ _ _ => false
  end.

(** [x in tag], that is [Tag.__contains__]: [x in tag.contents]. *)
Definition tag_contains (x : string) (tag : node) : bool :=
  existsb (fun child => node_eq_str child x) (contents tag).

(** ** DataFrames, the store and the trace *)

Inductive cell : Type :=
| CStr (s : string)
| CFloat (f : float).

(** A frame is its columns in order, each a name and the values by row. *)
Definition DataFrame : Type := list (string * list cell).

(** A reference to a frame in the store. *)
Definition ref : Type := nat.

Record Response : Type := { status_code : Z; text : string }.

Inductive event : Type :=
| HttpGet (url : string)
| LogAppend (line : string)
| CsvWrite (path : string) (df : DataFrame)
| SqlConnect (db : string)
| SqlReplace (conn : string) (table : string) (df : DataFrame)
| SqlRead (conn : string) (query : string)
| SqlClose (conn : string).

Record state : Type := { heap : list DataFrame; trace : list event }.

(** What the outside world answers: the server's response to a GET, the tree
    [html.parser] builds from a page, the rows a query yields and the
    formatted clock, the last two depending on what happened so far. *)
Record World : Type := {
  http_response : string -> Response;
  html_parser : string -> node;
  sql_rows : list event -> string -> string -> DataFrame;
  strftime_now : list event -> string
}.

(** The value a Python function hands back when it is not a frame. *)
Inductive value : Type :=
| PyNone
| PyFrame (r : ref).

(** ** The monad of the script: state and exceptions *)

Definition M (A : Type) : Type := state -> result A * state.

Definition ret {A} (a : A) : M A := fun st => (Return a, st).

Definition raise {A} (e : exn) : M A := fun st => (Raise e, st).

Definition out_of_model {A} : M A := fun st => (OutOfModel, st).

Definition bind {A B} (m : M A) (k : A -> M B) : M B :=
  fun st =>
    match m st with
    | (Return a, st') => k a st'
    | (Raise e, st') => (Raise e, st')
    | (OutOfModel, st') => (OutOfModel, st')
    end.

Notation "'let*' x ':=' m 'in' k" := (bind m (fun x => k))
  (at level 10, x name, m at level 100, k at level 200).
Notation "m ';;' k" := (bind m (fun _ => k))
  (at level 100, k at level 200, right associativity).

Definition lift {A} (r : result A) : M A := fun st => (r, st).

Definition emit (e : event) : M unit :=
  fun st => (Return tt, {| heap := heap st; trace := trace st ++ [e] |}).

(** [l[i]] on a Python list, for an index [i >= 0]. *)
Definition getitem {A} (l : list A) (i : nat) : M A :=
  match l !! i with
  | Some x => ret x
  | None => raise IndexError
  end.

(** A list comprehension whose element expression may raise. *)
Fixpoint comprehension {A B} (f : A -> result B) (l : list A) : result (list B) :=
  match l with
  | [] => Return []
  | x :: l' =>
      match f x with
      | Return y =>
          match comprehension f l' with
          | Return ys => Return (y :: ys)
          | Raise e => Raise e
          | OutOfModel => OutOfModel
          end
      | Raise e => Raise e
      | OutOfModel => OutOfModel
      end
  end.

(** A [for] loop that rebinds one local variable. *)
Fixpoint for_each {A B} (body : A -> B -> M B) (l : list A) (acc : B) : M B :=
  match l with
  | [] => ret acc
  | x :: l' => let* acc' := body x acc in for_each body l' acc'
  end.

(** ** pandas *)

Definition new_frame (f : DataFrame) : M ref :=
  fun st => (Return (length (heap st)),
             {| heap := heap st ++ [f]; trace := trace st |}).

Definition read_frame (r : ref) : M DataFrame :=
  fun st => match heap st !! r with
            | Some f => (Return f, st)
            | None => (OutOfModel, st)
            end.

Definition write_frame (r : ref) (f : DataFrame) : M unit :=
  fun st => (Return tt, {| heap := <[r := f]> (heap st); trace := trace st |}).

(** [pd.DataFrame(columns=names)] *)
Definition pd_DataFrame_columns (names : list string) : M ref :=
  new_frame (map (fun c => (c, [])) names).

(** A value of a dict given to [pd.DataFrame] with a one-row index.  A text
    node is a scalar and fills the row.  pandas takes a tag for a list-like
    and reads its children as the values of the column: one child that is a
    text node is the value of the row; no child, or more than one, does not
    fit the index and raises [ValueError].  One child that is itself a tag
    is not modelled. *)
Definition scalar (v : node) : result cell :=
  match v with
  | NavigableString s => Return (CStr s)
  | Tag _ _ [NavigableString s] => Return (CStr s)
  | Tag _ _ [Tag _ _ _] => OutOfModel
  | Tag _ _ _ => Raise ValueError
  end.

(** [pd.DataFrame(data_dict, index=[0])]: one row. *)
Definition pd_DataFrame_row (data_dict : list (string * node)) : M ref :=
  let* cols := lift (comprehension
                       (fun kv => match scalar (snd kv) with
                                  | Return c => Return (fst kv, [c])
                                  | Raise e => Raise e
                                  | OutOfModel => OutOfModel
                                  end) data_dict) in
  new_frame cols.

Definition append_rows (a b : DataFrame) : DataFrame :=
  map (fun ab => (fst (fst ab), snd (fst ab) ++ snd (snd ab))) (combine a b).

(** [pd.concat([a, b], ignore_index=True)] for frames with the same column
    names in the same order; frames with different columns are not
    modelled. *)
Definition pd_concat (a b : ref) : M ref :=
  let* fa := read_frame a in
  let* fb := read_frame b in
  if decide (map fst fa = map fst fb) then new_frame (append_rows fa fb)
  else out_of_model.

Fixpoint column (key : string) (f : DataFrame) : option (list cell) :=
  match f with
  | [] => None
  | (k, vs) :: f' => if String.eqb k key then Some vs else column key f'
  end.

Fixpoint set_column (key : string) (vs : list cell) (f : DataFrame) : DataFrame :=
  match f with
  | [] => [(key, vs)]
  | (k, old) :: f' =>
      if String.eqb k key then (k, vs) :: f' else (k, old) :: set_column key vs f'
  end.

(** [df[key]] *)
Definition getitem_column (df : ref) (key : string) : M (list cell) :=
  let* f := read_frame df in
  match column key f with
  | Some vs => ret vs
  | None => raise (KeyError key)
  end.

(** [df[key] = values]: the frame object itself is changed. *)
Definition setitem_column (df : ref) (key : string) (vs : list cell) : M unit :=
  let* f := read_frame df in
  write_frame df (set_column key vs f).

(** [series.astype(float)] on values that are floats already. *)
Definition astype_float (vs : list cell) : M (list cell) :=
  lift (comprehension (fun c => match c with
                                | CFloat f => Return (CFloat f)
                                | CStr _ => OutOfModel
                                end) vs).

Fixpoint rename_key (columns : list (string * string)) (k : string) : string :=
  match columns with
  | [] => k
  | (old, new) :: columns' => if String.eqb k old then new else rename_key columns' k
  end.

(** [df.rename(columns=mapping)]: a new frame. *)
Definition rename (df : ref) (columns : list (string * string)) : M ref :=
  let* f := read_frame df in
  new_frame (map (fun kv => (rename_key columns (fst kv), snd kv)) f).

(** [pd.read_sql(query, conn)] for a query the database executes; the
    [DatabaseError] of a query it rejects is not modelled. *)
Definition pd_read_sql (W : World) (query conn : string) : M ref :=
  fun st =>
    let rows := sql_rows W (trace st) conn query in
    bind (emit (SqlRead conn query)) (fun _ => new_frame rows) st.

(** ** The script *)

Section Script.

Variable W : World.

(** [requests.get(url)] *)
Definition requests_get (url : string) : M Response :=
  emit (HttpGet url) ;; ret (http_response W url).

(** The body of the [for row in rows] loop of [extract]; [df] is the frame
    built so far, the result the frame after this row. *)
Definition extract_row (row : node) (df : ref) : M ref :=
  let col := find_all "td" row in
  if negb (Nat.eqb (length col) 0) then
    let* col0 := getitem col 0 in
    let* qualifies :=
      match find "a" col0 with
      | Some _ => let* col2 := getitem col 2 in ret (negb (tag_contains "—" col2))
      | None => ret false
      end in
    if (qualifies : bool) then
      let* col0 := getitem col 0 in
      let* a := match find "a" col0 with
                | Some a => ret a
                | None => raise AttributeError
                end in
      let* country := getitem (contents a) 0 in
      let* col2 := getitem col 2 in
      let* gdp := getitem (contents col2) 0 in
      let data_dict := [("Country", country); ("GDP_USD_millions", gdp)] in
      let* df1 := pd_DataFrame_row data_dict in
      pd_concat df df1
    else ret df
  else ret df.

Definition extract (url : string) (table_attribs : list string) : M ref :=
  let* response := requests_get url in
  if negb (status_code response =? 200) then
    raise (Exception ("Failed to load page: " +:+ pretty (status_code response)))
  else
    let page := text response in
    let data := html_parser W page in
    let* df := pd_DataFrame_columns table_attribs in
    let tables := find_all "tbody" data in
    let* table := getitem tables 2 in
    let rows := find_all "tr" table in
    for_each extract_row rows df.

(** [float("".join(x.split(',')))] on one value of the column. *)
Definition to_float (x : cell) : result float :=
  match x with
  | CStr s => py_float (str_join "" (str_split "," s))
  | CFloat _ => Raise AttributeError
  end.

Definition transform (df : ref) : M ref :=
  let* GDP_list := getitem_column df "GDP_USD_millions" in
  let* GDP_list := lift (comprehension to_float GDP_list) in
  let GDP_list :=
    map (fun x => np_round (Float.div x (Float.of_Z 1000)) 2) GDP_list in
  setitem_column df "GDP_USD_millions" (map CFloat GDP_list) ;;
  let* series := getitem_column df "GDP_USD_millions" in
  let* series := astype_float series in
  setitem_column df "GDP_USD_millions" series ;;
  let* df := rename df [("GDP_USD_millions", "GDP_USD_billions")] in
  ret df.

Definition load_to_csv (df : ref) (csv_path : string) : M value :=
  let* f := read_frame df in
  emit (CsvWrite csv_path f) ;; ret PyNone.

Definition load_to_db (df : ref) (sql_connection table_name : string) : M value :=
  let* f := read_frame df in
  emit (SqlReplace sql_connection table_name f) ;; ret PyNone.

Definition run_query (query_statement sql_connection : string) : M value :=
  let* query_output := pd_read_sql W query_statement sql_connection in
  ret PyNone.

Definition log_progress (message : string) : M value :=
  fun st =>
    let timestamp := strftime_now W (trace st) in
    bind (emit (LogAppend (timestamp +:+ " : " +:+ message +:+ String "010" "")))
         (fun _ => ret PyNone) st.

(** Constants *)
Definition url : string :=
  "https://web.archive.org/web/20230902185326/https://en.wikipedia.org/wiki/List_of_countries_by_GDP_%28nominal%29".
Definition table_attribs : list string := ["Country"; "GDP_USD_millions"].
Definition db_name : string := "World_Economies.db".
Definition table_name : string := "Countries_by_GDP".
Definition csv_path : string := "./Countries_by_GDP.csv".

Definition sqlite3_connect (db : string) : M string :=
  emit (SqlConnect db) ;; ret db.

Definition sqlite3_close (conn : string) : M value :=
  emit (SqlClose conn) ;; ret PyNone.

(** The pipeline at module level. *)
Definition script : M value :=
  log_progress "Preliminaries complete. Initiating ETL process" ;;
  let* df := extract url table_attribs in
  log_progress "Data extraction complete. Initiating Transformation process" ;;
  let* df := transform df in
  log_progress "Data transformation complete. Initiating loading process" ;;
  load_to_csv df csv_path ;;
  log_progress "Data saved to CSV file" ;;
  let* sql_connection := sqlite3_connect db_name in
  log_progress "SQL Connection initiated." ;;
  load_to_db df sql_connection table_name ;;
  log_progress "Data loaded to Database as table. Running the query" ;;
  let query_statement :=
    "SELECT * FROM " +:+ table_name +:+ " WHERE GDP_USD_billions >= 100" in
  run_query query_statement sql_connection ;;
  log_progress "Process Complete." ;;
  sqlite3_close sql_connection.

End Script.

(** ** Vocabulary of the properties *)

(** Removing every comma from a string. *)
Fixpoint strip_commas (s : string) : string :=
  match s with
  | EmptyString => EmptyString
  | String c s' =>
      if Ascii.eqb c "," then strip_commas s' else String c (strip_commas s')
  end.

(** [tag.get_text()]: all the text below an element, in document order. *)
Fixpoint get_text (n : node) : string :=
  match n with
  | NavigableString s => s
  | Tag _ _ cs =>
      (fix children (l : list node) : string :=
         match l with
         | [] => EmptyString
         | c :: l' => get_text c +:+ children l'
         end) cs
  end.

Fixpoint is_prefix (p s : string) : bool :=
  match p, s with
  | EmptyString, _ => true
  | String a p', String b s' => Ascii.eqb a b && is_prefix p' s'
  | String _ _, EmptyString => false
  end.

(** [needle in haystack] on two strings: a substring test. *)
Fixpoint str_contains (needle haystack : string) : bool :=
  is_prefix needle haystack ||
  match haystack with
  | EmptyString => false
  | String _ h' => str_contains needle h'
  end.

(** The data cells of a row, and the first and third of them. *)
Definition cells (row : node) : list node := find_all "td" row.

Definition marker : string := "—".

(** The row test of [extract]: at least one cell, a hyperlink in the first
    cell, and no child of the third cell equal to the marker. *)
Definition qualifies (row : node) : bool :=
  match cells row with
  | [] => false
  | c0 :: _ =>
      match find "a" c0, cells row !! 2%nat with
      | Some _, Some c2 => negb (tag_contains marker c2)
      | _, _ => false
      end
  end.

Definition first_text (n : node) : string :=
  match contents n with
  | NavigableString s :: _ => s
  | _ => EmptyString
  end.

(** The record [extract] builds from a qualifying row: the first child of
    the first cell's hyperlink and the first child of the third cell. *)
Definition record_of (row : node) : string * string :=
  match cells row with
  | c0 :: _ :: c2 :: _ =>
      match find "a" c0 with
      | Some a => (first_text a, first_text c2)
      | None => (EmptyString, EmptyString)
      end
  | _ => (EmptyString, EmptyString)
  end.

Definition starts_with_text (n : node) : bool :=
  match contents n with
  | NavigableString _ :: _ => true
  | _ => false
  end.

(** A row [extract] gets through: when the first cell has a hyperlink there
    is a third cell, and when the row qualifies the hyperlink and the third
    cell both begin with a text node. *)
Definition extractable (row : node) : bool :=
  match cells row with
  | [] => true
  | c0 :: _ =>
      match find "a" c0 with
      | None => true
      | Some a =>
          match cells row !! 2%nat with
          | None => false
          | Some c2 =>
              tag_contains marker c2 || (starts_with_text a && starts_with_text c2)
          end
      end
  end.

(** The frame holding a sequence of records. *)
Definition frame_of_records (recs : list (string * string)) : DataFrame :=
  [("Country", map (fun r => CStr (fst r)) recs);
   ("GDP_USD_millions", map (fun r => CStr (snd r)) recs)].

(** The frame after [transform]: the converted values under the new name. *)
Definition frame_of_billions (countries : list cell) (xs : list float) : DataFrame :=
  [("Country", countries); ("GDP_USD_billions", map CFloat xs)].

(** The records one row adds to the frame under construction. *)
Definition row_records (row : node) : list (string * string) :=
  if qualifies row then [record_of row] else [].

(** The frame object [transform] was given, once its column is overwritten
    with the converted values [xs]. *)
Definition overwritten (f : DataFrame) (xs : list float) : DataFrame :=
  set_column "GDP_USD_millions"
    (map CFloat (map (fun x => np_round (Float.div x (Float.of_Z 1000)) 2) xs)) f.

(** The new frame [rename] returns for it. *)
Definition renamed (f : DataFrame) : DataFrame :=
  map (fun kv => (rename_key [("GDP_USD_millions", "GDP_USD_billions")] (fst kv),
                  snd kv)) f.

(** The claimed reading of a row: the text of the hyperlink and the text of
    the third cell, kept when the third cell's text does not contain the
    marker. *)
Definition claimed_qualifies (row : node) : bool :=
  match cells row with
  | [] => false
  | c0 :: _ =>
      match find "a" c0, cells row !! 2%nat with
      | Some _, Some c2 => negb (str_contains marker (get_text c2))
      | _, _ => false
      end
  end.

Definition claimed_record (row : node) : string * string :=
  match cells row with
  | c0 :: _ :: c2 :: _ =>
      match find "a" c0 with
      | Some a => (get_text a, get_text c2)
      | None => (EmptyString, EmptyString)
      end
  | _ => (EmptyString, EmptyString)
  end.

Definition claimed_records (rows : list node) : list (string * string) :=
  map claimed_record (List.filter claimed_qualifies rows).

(** A computation that performs no effect on the outside world. *)
Definition keeps_trace {A} (m : M A) : Prop :=
  forall st, trace (snd (m st)) = trace st.

(** The state after the GET of [extract]. *)
Definition after_get (url : string) (st : state) : state :=
  {| heap := heap st; trace := trace st ++ [HttpGet url] |}.

(** ** Vocabulary of the further properties *)

(** The line [log_progress] appends when the trace so far is [t]. *)
Definition log_line (W : World) (t : list event) (message : string) : event :=
  LogAppend (strftime_now W t +:+ " : " +:+ message +:+ String "010" "").

(** The trace [t] after one more call of [log_progress]. *)
Definition logged (W : World) (t : list event) (message : string) : list event :=
  t ++ [log_line W t message].

(** The query the script runs. *)
Definition query_statement : string :=
  "SELECT * FROM " +:+ table_name +:+ " WHERE GDP_USD_billions >= 100".

(** The trace of a run of the script that gets to its end, from the trace
    [t] at the return of [extract]; [f] is the transformed frame. *)
Definition complete_trace (W : World) (t : list event) (f : DataFrame) : list event :=
  let t1 := logged W t "Data extraction complete. Initiating Transformation process" in
  let t2 := logged W t1 "Data transformation complete. Initiating loading process" in
  let t3 := logged W (t2 ++ [CsvWrite csv_path f]) "Data saved to CSV file" in
  let t4 := logged W (t3 ++ [SqlConnect db_name]) "SQL Connection initiated." in
  let t5 := logged W (t4 ++ [SqlReplace db_name table_name f])
              "Data loaded to Database as table. Running the query" in
  let t6 := logged W (t5 ++ [SqlRead db_name query_statement]) "Process Complete." in
  t6 ++ [SqlClose db_name].

(** A computation that leaves every frame of the store as it is and at most
    adds new ones. *)
Definition only_allocates {A} (m : M A) : Prop :=
  forall st, exists more, heap (snd (m st)) = heap st ++ more.

(** A string of decimal digits, at least one. *)
Definition digits_only (s : string) : bool :=
  match list_ascii_of_string s with
  | [] => false
  | l => forallb PyFloat.is_digit l
  end.

(** The integer a string of digits denotes. *)
Definition digits_value (s : string) : Z :=
  PyFloat.digits_to_Z (list_ascii_of_string s).

(** A string of nothing but white space and commas. *)
Definition blank (s : string) : bool :=
  forallb (fun c => PyFloat.is_space c || Ascii.eqb c ",") (list_ascii_of_string s).

Definition has_comma (s : string) : bool :=
  existsb (fun c => Ascii.eqb c ",") (list_ascii_of_string s).

(** A row the loop gets through, text nodes or not: as [extractable], but
    the first child of the hyperlink and of the third cell of a qualifying
    row may be any value [pd.DataFrame] takes for a one-row column. *)
Definition processable (row : node) : bool :=
  match cells row with
  | [] => true
  | c0 :: _ =>
      match find "a" c0 with
      | None => true
      | Some a =>
          match cells row !! 2%nat with
          | None => false
          | Some c2 =>
              tag_contains marker c2 ||
              match contents a, contents c2 with
              | v1 :: _, v2 :: _ =>
                  match scalar v1, scalar v2 with
                  | Return _, Return _ => true
                  | _, _ => false
                  end
              | _, _ => false
              end
          end
      end
  end.

(** A row on which the model of [pd.DataFrame] speaks: the values it is
    given, in the order it reads them, are not tags holding a single tag. *)
Definition covered (row : node) : bool :=
  match cells row with
  | [] => true
  | c0 :: _ =>
      match find "a" c0, cells row !! 2%nat with
      | Some a, Some c2 =>
          tag_contains marker c2 ||
          match contents a, contents c2 with
          | v1 :: _, v2 :: _ =>
              match scalar v1 with
              | OutOfModel => false
              | Raise _ => true
              | Return _ =>
                  match scalar v2 with
                  | OutOfModel => false
                  | _ => true
                  end
              end
          | _, _ => true
          end
      | _, _ => true
      end
  end.

(** ** Rounding to hundredths *)

(** The binary64 number the decimal literal [k / 100] denotes. *)
Definition hundredths (k : Z) : float := Float.of_decimal false k (-2).

(** Rounding to 2 decimal places, to the nearest: the hundredth nearest to
    the exact value of [x], ties to the even one, as a binary64 number. *)
Definition nearest_hundredth (x : float) : float :=
  match x with
  | S754_finite s m e =>
      let num := if 0 <=? e then 100 * Zpos m * 2 ^ e else 100 * Zpos m in
      let den := if 0 <=? e then 1 else 2 ^ (- e) in
      let q := num / den in
      let r := num mod den in
      let k := match Z.compare (2 * r) den with
               | Lt => q
               | Gt => q + 1
               | Eq => if Z.even q then q else q + 1
               end in
      Float.of_decimal s k (-2)
  | _ => x
  end.

(** Rounding the exact quotient [n / 1000] of a whole figure to 2 decimal
    places: ties to the even hundredth, or ties upwards. *)
Definition decimal_half_even (n : Z) : float :=
  let q := n / 10 in
  hundredths (match Z.compare (n mod 10) 5 with
              | Lt => q
              | Gt => q + 1
              | Eq => if Z.even q then q else q + 1
              end).

Definition decimal_half_up (n : Z) : float := hundredths ((n + 5) / 10).

(** What [transform] computes from a parsed figure: the quotient by 1000,
    times 100, to the nearest integer with ties to even, divided by 100,
    each step in binary64. *)
Definition billions (x : float) : float :=
  Float.div
    (Float.rint (Float.mul (Float.div x (Float.of_Z 1000)) (Float.of_Z 100)))
    (Float.of_Z 100).

Definition float_eqb (x y : float) : bool :=
  match x, y with
  | S754_finite s m e, S754_finite s' m' e' =>
      Bool.eqb s s' && Pos.eqb m m' && Z.eqb e e'
  | S754_zero s, S754_zero s' => Bool.eqb s s'
  | S754_infinity s, S754_infinity s' => Bool.eqb s s'
  | S754_nan, S754_nan => true
  | _, _ => false
  end.

(** The whole figure [n] is converted to the hundredth nearest to
    [n / 1000], or, when [n] ends in 5 and two hundredths are equally near,
    to one of the two. *)
Definition whole_figure_rounds (n : Z) : bool :=
  let y := billions (Float.of_decimal false n 0) in
  if n mod 10 =? 5 then
    float_eqb y (hundredths (n / 10)) || float_eqb y (hundredths (n / 10 + 1))
  else float_eqb y (hundredths ((n + 5) / 10)).

Fixpoint whole_figures_below (k : nat) : bool :=
  match k with
  | O => true
  | S k' => whole_figure_rounds (Z.of_nat k') && whole_figures_below k'
  end.


(** ** Sample pages *)

Module Sample.

Definition td (children : list node) : node := Tag "td" [] children.
Definition tr (children : list node) : node := Tag "tr" [] children.
Definition a (s : string) : node := Tag "a" [] [NavigableString s].
Definition tbody (rows : list node) : node := Tag "tbody" [] rows.
Definition table (rows : list node) : node := Tag "table" [] [tbody rows].

(** A page with three tables; [rows] are the rows of the third. *)
Definition page (rows : list node) : node :=
  Tag "[document]" [] [table []; table []; table rows].

Definition empty_page : node := Tag "[document]" [] [].

(** A world that serves one page: [html] is its text, [doc] the tree
    [html.parser] builds from it. *)
Definition world (status : Z) (html : string) (doc : node) (rows : DataFrame) : World :=
  {| http_response := fun _ => {| status_code := status; text := html |};
     html_parser := fun p => if String.eqb p html then doc else empty_page;
     sql_rows := fun _ _ _ => rows;
     strftime_now := fun _ => "2023-Sep-02-18:53:26" |}.

Definition start : state := {| heap := []; trace := [] |}.

Definition two_tables : string :=
  "<table><tbody></tbody></table><table><tbody></tbody></table>".

(** The scenario row: Xland with 12,345 million. *)
Definition xland_row : node :=
  tr [td [a "Xland"]; td [NavigableString "1"]; td [NavigableString "12,345"]].

Definition xland_html : string :=
  two_tables +:+
  "<table><tbody><tr><td><a>Xland</a></td><td>1</td><td>12,345</td></tr></tbody></table>".

Definition xland_world : World := world 200 xland_html (page [xland_row]) [].

(** A third cell with a footnote after the figure. *)
Definition footnote_row : node :=
  tr [td [a "Xland"]; td [NavigableString "1"];
      td [NavigableString "12,345"; Tag "sup" [] [NavigableString "[n 1]"]]].

Definition footnote_html : string :=
  two_tables +:+
  "<table><tbody><tr><td><a>Xland</a></td><td>1</td><td>12,345<sup>[n 1]</sup></td></tr></tbody></table>".

Definition footnote_world : World := world 200 footnote_html (page [footnote_row]) [].

(** A third cell whose text contains the marker inside a longer string. *)
Definition dash_row : node :=
  tr [td [a "Yland"]; td [NavigableString "2"]; td [NavigableString "— (2022)"]].

Definition dash_html : string :=
  two_tables +:+
  "<table><tbody><tr><td><a>Yland</a></td><td>2</td><td>— (2022)</td></tr></tbody></table>".

Definition dash_world : World := world 200 dash_html (page [dash_row]) [].

(** A third cell that is the marker alone. *)
Definition missing_row : node :=
  tr [td [a "Zland"]; td [NavigableString "3"]; td [NavigableString "—"]].

(** A page with only two table bodies. *)
Definition two_tables_world : World :=
  world 200 two_tables (Tag "[document]" [] [table []; table []]) [].

(** The server answers 204 No Content. *)
Definition no_content_world : World := world 204 "" empty_page [].

(** A hyperlinked row with two cells only. *)
Definition short_row : node := tr [td [a "Wland"]; td [NavigableString "4"]].

Definition short_html : string :=
  two_tables +:+
  "<table><tbody><tr><td><a>Xland</a></td><td>1</td><td>12,345</td></tr><tr><td><a>Wland</a></td><td>4</td></tr></tbody></table>".

Definition short_world : World :=
  world 200 short_html (page [xland_row; short_row]) [].

(** A figure that is not a number. *)
Definition text_row : node :=
  tr [td [a "Vland"]; td [NavigableString "5"]; td [NavigableString "n/a"]].

Definition text_html : string :=
  two_tables +:+
  "<table><tbody><tr><td><a>Vland</a></td><td>5</td><td>n/a</td></tr></tbody></table>".

Definition text_world : World := world 200 text_html (page [text_row]) [].

(** The rows a query finds. *)
Definition query_rows : DataFrame :=
  [("Country", [CStr "Xland"]); ("GDP_USD_billions", [CFloat (Float.of_Z 200)])].

Definition query_world : World := world 200 xland_html (page [xland_row]) query_rows.

(** A store holding the extracted Xland record. *)
Definition xland_store : state :=
  {| heap := [frame_of_records [("Xland", "12,345")]]; trace := [] |}.

(** A hyperlinked row whose third cell is empty. *)
Definition empty_row : node :=
  tr [td [a "Uland"]; td [NavigableString "6"]; td []].

Definition empty_html : string :=
  two_tables +:+
  "<table><tbody><tr><td><a>Xland</a></td><td>1</td><td>12,345</td></tr><tr><td><a>Uland</a></td><td>6</td><td></td></tr></tbody></table>".

Definition empty_world : World :=
  world 200 empty_html (page [xland_row; empty_row]) [].

(** A third cell whose figure is set in bold, and one that begins with a
    line break. *)
Definition bold_row : node :=
  tr [td [a "Tland"]; td [NavigableString "7"];
      td [Tag "b" [] [NavigableString "12,345"]]].

Definition break_row : node :=
  tr [td [a "Sland"]; td [NavigableString "8"];
      td [Tag "br" [] []; NavigableString "5"]].

Definition bold_html : string :=
  two_tables +:+
  "<table><tbody><tr><td><a>Tland</a></td><td>7</td><td><b>12,345</b></td></tr></tbody></table>".

Definition bold_world : World := world 200 bold_html (page [bold_row]) [].

Definition break_html : string :=
  two_tables +:+
  "<table><tbody><tr><td><a>Tland</a></td><td>7</td><td><b>12,345</b></td></tr><tr><td><a>Sland</a></td><td>8</td><td><br/>5</td></tr></tbody></table>".

Definition break_world : World :=
  world 200 break_html (page [bold_row; break_row]) [].

(** A store holding two extracted records whose quotients by 1000 lie
    halfway between two hundredths. *)
Definition ties_store : state :=
  {| heap := [frame_of_records [("Xland", "12,345"); ("Yland", "1,035")]];
     trace := [] |}.

(** A page whose second figure is a dash with a year. *)
Definition dashes_html : string :=
  two_tables +:+
  "<table><tbody><tr><td><a>Xland</a></td><td>1</td><td>12,345</td></tr><tr><td><a>Yland</a></td><td>2</td><td>— (2022)</td></tr></tbody></table>".

Definition dashes_world : World :=
  world 200 dashes_html (page [xland_row; dash_row]) [].

(** The state in which the script calls [transform] on that page. *)
Definition dashes_store : state :=
  snd (log_progress dashes_world
         "Data extraction complete. Initiating Transformation process"
         (snd (extract dashes_world url table_attribs
                 (snd (log_progress dashes_world
                         "Preliminaries complete. Initiating ETL process" start))))).

(** The state in which the script calls [transform] on the page whose
    figure is not a number. *)
Definition text_store : state :=
  snd (log_progress text_world
         "Data extraction complete. Initiating Transformation process"
         (snd (extract text_world url table_attribs
                 (snd (log_progress text_world
                         "Preliminaries complete. Initiating ETL process" start))))).

End Sample.

(** ** Strings: [split] then [join] removes the separator *)

Lemma str_split_nonempty sep x : str_split sep x <> [].
Proof.
  destruct x as [|c x]; simpl; [discriminate|].
  destruct (Ascii.eqb c sep); [discriminate|].
  destruct (str_split sep x); discriminate.
Qed.

Lemma str_join_cons_empty (hd : string) (tl : list string) :
  tl <> [] -> str_join "" (hd :: tl) = hd +:+ str_join "" tl.
Proof.
  destruct tl as [|y tl]; [congruence|]. intros _. reflexivity.
Qed.

Lemma str_join_split (x : string) :
  str_join "" (str_split "," x) = strip_commas x.
Proof.
  induction x as [|c x IH]; [reflexivity|].
  simpl. destruct (Ascii.eqb c ",") eqn:Hc.
  - rewrite str_join_cons_empty by apply str_split_nonempty. exact IH.
  - pose proof (str_split_nonempty "," x) as Hne.
    destruct (str_split "," x) as [|hd tl] eqn:Hs; [congruence|].
    rewrite <- IH. destruct tl as [|y tl]; reflexivity.
Qed.

Lemma to_float_str (raw : string) :
  to_float (CStr raw) = py_float (strip_commas raw).
Proof. unfold to_float. now rewrite str_join_split. Qed.

(** ** Running the primitives *)

Lemma getitem_some {A} (l : list A) (i : nat) (x : A) (st : state) :
  l !! i = Some x -> getitem l i st = (Return x, st).
Proof. unfold getitem. now intros ->. Qed.

Lemma getitem_none {A} (l : list A) (i : nat) (st : state) :
  l !! i = None -> getitem l i st = (@Raise A IndexError, st).
Proof. unfold getitem. now intros ->. Qed.

Lemma read_frame_some (r : ref) (f : DataFrame) (st : state) :
  heap st !! r = Some f -> read_frame r st = (Return f, st).
Proof. unfold read_frame. now intros ->. Qed.

Lemma bind_return {A B} (m : M A) (k : A -> M B) (st st' : state) (x : A) :
  m st = (Return x, st') -> bind m k st = k x st'.
Proof. unfold bind. now intros ->. Qed.

Lemma bind_raise {A B} (m : M A) (k : A -> M B) (st st' : state) (e : exn) :
  m st = (Raise e, st') -> bind m k st = (Raise e, st').
Proof. unfold bind. now intros ->. Qed.

Lemma bind_out_of_model {A B} (m : M A) (k : A -> M B) (st st' : state) :
  m st = (OutOfModel, st') -> bind m k st = (OutOfModel, st').
Proof. unfold bind. now intros ->. Qed.

Lemma pd_DataFrame_row_run (country gdp : string) (st : state) :
  pd_DataFrame_row [("Country", NavigableString country);
                    ("GDP_USD_millions", NavigableString gdp)] st =
    (Return (length (heap st)),
     {| heap := heap st ++ [frame_of_records [(country, gdp)]];
        trace := trace st |}).
Proof. reflexivity. Qed.

Lemma pd_concat_run (a b : ref) (fa fb : DataFrame) (st : state) :
  heap st !! a = Some fa -> heap st !! b = Some fb ->
  map fst fa = map fst fb ->
  pd_concat a b st =
    (Return (length (heap st)),
     {| heap := heap st ++ [append_rows fa fb]; trace := trace st |}).
Proof.
  intros Ha Hb Hcols. unfold pd_concat.
  rewrite (bind_return _ _ st st fa) by now apply read_frame_some.
  rewrite (bind_return _ _ st st fb) by now apply read_frame_some.
  destruct (decide (map fst fa = map fst fb)); [reflexivity | contradiction].
Qed.

(** ** One row of the loop *)

Section Rows.

Variables (row : node) (df : ref) (st : state).

Lemma extract_row_no_cells :
  cells row = [] -> extract_row row df st = (Return df, st).
Proof. unfold extract_row, cells. now intros ->. Qed.

Lemma extract_row_no_link c0 rest :
  cells row = c0 :: rest -> find "a" c0 = None ->
  extract_row row df st = (Return df, st).
Proof.
  unfold extract_row, cells. intros -> Ha. cbn. now rewrite Ha.
Qed.

Lemma extract_row_short c0 rest a :
  cells row = c0 :: rest -> find "a" c0 = Some a -> cells row !! 2%nat = None ->
  extract_row row df st = (Raise IndexError, st).
Proof.
  unfold extract_row, cells. intros Hc Ha H2. rewrite Hc in *. cbn.
  rewrite Ha. rewrite (bind_raise _ _ st st IndexError); [reflexivity|].
  apply bind_raise. now apply getitem_none.
Qed.

Lemma extract_row_marker c0 rest a c2 :
  cells row = c0 :: rest -> find "a" c0 = Some a -> cells row !! 2%nat = Some c2 ->
  tag_contains marker c2 = true ->
  extract_row row df st = (Return df, st).
Proof.
  unfold extract_row, cells. intros Hc Ha H2 Hm. rewrite Hc in *. cbn.
  rewrite Ha. unfold marker in Hm.
  rewrite (bind_return _ _ st st false); [reflexivity|].
  rewrite (bind_return _ _ st st c2) by now apply getitem_some.
  unfold ret. now rewrite Hm.
Qed.

Lemma extract_row_emit c0 rest a c2 f country gdp ca cg :
  cells row = c0 :: rest -> find "a" c0 = Some a -> cells row !! 2%nat = Some c2 ->
  tag_contains marker c2 = false ->
  contents a = NavigableString country :: ca ->
  contents c2 = NavigableString gdp :: cg ->
  heap st !! df = Some f ->
  map fst f = ["Country"; "GDP_USD_millions"] ->
  extract_row row df st =
    (Return (S (length (heap st))),
     {| heap := heap st ++ [frame_of_records [(country, gdp)];
                            append_rows f (frame_of_records [(country, gdp)])];
        trace := trace st |}).
Proof.
  unfold extract_row, cells. intros Hc Ha H2 Hm Hca Hcg Hf Hcols.
  rewrite Hc in *. cbn. rewrite Ha. unfold marker in Hm.
  rewrite (bind_return _ _ st st true).
  2:{ rewrite (bind_return _ _ st st c2) by now apply getitem_some.
      unfold ret. now rewrite Hm. }
  cbn. rewrite Ha. cbn. rewrite Hca. cbn.
  rewrite (bind_return _ _ st st c2) by now apply getitem_some.
  rewrite Hcg. cbn [lookup list_lookup].
  rewrite (bind_return _ _ st st (NavigableString gdp)) by reflexivity.
  erewrite bind_return by apply pd_DataFrame_row_run.
  erewrite pd_concat_run; cbn [heap trace].
  - rewrite length_app, <- app_assoc. cbn. repeat f_equal. lia.
  - rewrite lookup_app_l by (apply lookup_lt_Some in Hf; exact Hf). exact Hf.
  - rewrite lookup_app_r by lia. rewrite Nat.sub_diag. reflexivity.
  - exact Hcols.
Qed.

End Rows.

(** ** The loop over the rows *)

Lemma append_rows_records (recs : list (string * string)) (rec : string * string) :
  append_rows (frame_of_records recs) (frame_of_records [rec]) =
  frame_of_records (recs ++ [rec]).
Proof. unfold append_rows, frame_of_records. cbn. now rewrite !map_app. Qed.

Lemma third_cell (c0 c2 : node) (rest : list node) :
  (c0 :: rest) !! 2%nat = Some c2 ->
  exists c1 rest', rest = c1 :: c2 :: rest'.
Proof.
  destruct rest as [|c1 [|c2' rest']]; cbn; try discriminate.
  intros [= ->]. eauto.
Qed.

Lemma starts_with_text_inv (n : node) :
  starts_with_text n = true ->
  exists s tl, contents n = NavigableString s :: tl /\ first_text n = s.
Proof.
  unfold starts_with_text, first_text.
  destruct (contents n) as [|[s|nm ats cs] tl]; try discriminate. eauto.
Qed.

Lemma extract_row_extractable (row : node) (df : ref) (st : state)
    (recs : list (string * string)) :
  extractable row = true ->
  heap st !! df = Some (frame_of_records recs) ->
  exists df' more,
    extract_row row df st =
      (Return df', {| heap := heap st ++ more; trace := trace st |}) /\
    (heap st ++ more) !! df' = Some (frame_of_records (recs ++ row_records row)).
Proof.
  intros Hok Hdf. unfold extractable in Hok. unfold row_records, qualifies, record_of.
  assert (Hskip : forall st0 : state,
             st0 = {| heap := heap st0; trace := trace st0 |}).
  { now intros [h t]. }
  destruct (cells row) as [|c0 rest] eqn:Hc.
  { exists df, []. rewrite extract_row_no_cells by exact Hc.
    rewrite !app_nil_r. split; [f_equal; apply Hskip | exact Hdf]. }
  destruct (find "a" c0) as [a|] eqn:Ha.
  2:{ exists df, []. rewrite (extract_row_no_link _ _ _ _ _ Hc Ha).
      rewrite !app_nil_r. split; [f_equal; apply Hskip | exact Hdf]. }
  destruct ((c0 :: rest) !! 2%nat) as [c2|] eqn:H2; [|discriminate].
  rewrite <- Hc in H2.
  destruct (tag_contains marker c2) eqn:Hm.
  { exists df, []. rewrite (extract_row_marker _ _ _ _ _ _ _ Hc Ha H2 Hm).
    rewrite !app_nil_r. split; [f_equal; apply Hskip | exact Hdf]. }
  cbn in Hok. apply andb_true_iff in Hok as [Hta Htc].
  apply starts_with_text_inv in Hta as (country & ca & Hca & Hfa).
  apply starts_with_text_inv in Htc as (gdp & cg & Hcg & Hfg).
  rewrite (extract_row_emit _ _ _ _ _ _ _ _ _ _ _ _ Hc Ha H2 Hm Hca Hcg Hdf eq_refl).
  rewrite Hc in H2. destruct (third_cell _ _ _ H2) as (c1 & rest' & ->).
  rewrite Hfa, Hfg. cbn [negb].
  eexists _, _. split; [reflexivity|].
  rewrite lookup_app_r by lia.
  rewrite append_rows_records. cbn.
  replace (S (length (heap st)) - length (heap st))%nat with 1%nat by lia.
  reflexivity.
Qed.

Lemma for_each_extractable (rows : list node) :
  forall (df : ref) (st : state) (recs : list (string * string)),
  Forall (fun row => extractable row = true) rows ->
  heap st !! df = Some (frame_of_records recs) ->
  exists df' more,
    for_each extract_row rows df st =
      (Return df', {| heap := heap st ++ more; trace := trace st |}) /\
    (heap st ++ more) !! df' =
      Some (frame_of_records (recs ++ map record_of (List.filter qualifies rows))).
Proof.
  induction rows as [|row rows IH]; intros df st recs Hok Hdf.
  - exists df, []. cbn. rewrite !app_nil_r. split; [|exact Hdf].
    unfold ret. destruct st; reflexivity.
  - inversion Hok as [|? ? Hrow Hrows]; subst.
    destruct (extract_row_extractable row df st recs Hrow Hdf)
      as (df1 & more1 & Hrun & Hdf1).
    cbn [for_each]. rewrite (bind_return _ _ _ _ _ Hrun).
    destruct (IH df1 {| heap := heap st ++ more1; trace := trace st |}
                (recs ++ row_records row) Hrows Hdf1)
      as (df2 & more2 & Hrun2 & Hdf2).
    cbn [heap trace] in Hrun2, Hdf2.
    exists df2, (more1 ++ more2). rewrite app_assoc. split; [exact Hrun2|].
    rewrite Hdf2. do 2 f_equal. rewrite <- app_assoc. f_equal.
    unfold row_records. cbn [List.filter]. destruct (qualifies row); reflexivity.
Qed.

(** The first row that is hyperlinked and short stops the loop. *)
Lemma for_each_short_row (pre : list node) :
  forall (row : node) (post : list node) (df : ref) (st : state)
         (recs : list (string * string)) (c0 a : node) (rest : list node),
  Forall (fun r => extractable r = true) pre ->
  heap st !! df = Some (frame_of_records recs) ->
  cells row = c0 :: rest -> find "a" c0 = Some a -> cells row !! 2%nat = None ->
  exists more,
    for_each extract_row (pre ++ row :: post) df st =
      (Raise IndexError, {| heap := heap st ++ more; trace := trace st |}).
Proof.
  induction pre as [|r pre IH]; intros row post df st recs c0 a rest Hok Hdf Hc Ha H2.
  - exists []. cbn [app for_each].
    rewrite (bind_raise _ _ _ _ _ (extract_row_short _ _ _ _ _ _ Hc Ha H2)).
    rewrite app_nil_r. destruct st; reflexivity.
  - inversion Hok as [|? ? Hr Hpre]; subst.
    destruct (extract_row_extractable r df st recs Hr Hdf)
      as (df1 & more1 & Hrun & Hdf1).
    cbn [app for_each]. rewrite (bind_return _ _ _ _ _ Hrun).
    destruct (IH row post df1 {| heap := heap st ++ more1; trace := trace st |}
                _ c0 a rest Hpre Hdf1 Hc Ha H2) as (more2 & Hrun2).
    cbn [heap trace] in Hrun2. exists (more1 ++ more2). now rewrite app_assoc.
Qed.

(** ** [extract] as a whole *)

Section Extract.

Variables (W : World) (u : string) (st : state).

Let response := http_response W u.
Let tables := find_all "tbody" (html_parser W (text response)).

Lemma extract_not_200 (attribs : list string) :
  status_code response <> 200 ->
  extract W u attribs st =
    (Raise (Exception ("Failed to load page: " +:+ pretty (status_code response))),
     after_get u st).
Proof.
  intros Hs. unfold extract, requests_get, bind, emit, ret. cbn.
  fold response. destruct (Z.eqb_spec (status_code response) 200); [contradiction|].
  reflexivity.
Qed.

Lemma extract_200 (attribs : list string) :
  status_code response = 200 ->
  extract W u attribs st =
    (let* df := pd_DataFrame_columns attribs in
     let* table := getitem tables 2 in
     for_each extract_row (find_all "tr" table) df) (after_get u st).
Proof.
  intros Hs. unfold extract, requests_get.
  unfold bind at 1. unfold bind at 1. unfold emit, ret. cbv beta iota.
  fold response. rewrite Hs. reflexivity.
Qed.

Lemma extract_few_tables (attribs : list string) :
  status_code response = 200 -> (length tables < 3)%nat ->
  extract W u attribs st =
    (Raise IndexError,
     {| heap := heap st ++ [map (fun c => (c, [])) attribs];
        trace := trace st ++ [HttpGet u] |}).
Proof.
  intros Hs Hlen. rewrite (extract_200 _ Hs).
  unfold pd_DataFrame_columns.
  erewrite bind_return by reflexivity.
  erewrite bind_raise; [reflexivity|].
  apply getitem_none. apply lookup_ge_None. lia.
Qed.

Lemma extract_third_table (attribs : list string) (table : node) :
  status_code response = 200 -> tables !! 2%nat = Some table ->
  extract W u attribs st =
    for_each extract_row (find_all "tr" table) (length (heap st))
      {| heap := heap st ++ [map (fun c => (c, [])) attribs];
         trace := trace st ++ [HttpGet u] |}.
Proof.
  intros Hs Ht. rewrite (extract_200 _ Hs).
  unfold pd_DataFrame_columns.
  erewrite bind_return by reflexivity.
  erewrite bind_return by (apply getitem_some; exact Ht).
  reflexivity.
Qed.

Lemma extract_extractable (table : node) :
  status_code response = 200 -> tables !! 2%nat = Some table ->
  Forall (fun row => extractable row = true) (find_all "tr" table) ->
  exists df more,
    extract W u table_attribs st =
      (Return df, {| heap := heap st ++ more; trace := trace st ++ [HttpGet u] |}) /\
    (heap st ++ more) !! df =
      Some (frame_of_records
              (map record_of (List.filter qualifies (find_all "tr" table)))).
Proof.
  intros Hs Ht Hok. rewrite (extract_third_table _ _ Hs Ht).
  edestruct (for_each_extractable (find_all "tr" table) (length (heap st))
               {| heap := heap st ++ [frame_of_records []];
                  trace := trace st ++ [HttpGet u] |} [] Hok)
    as (df & more & Hrun & Hdf).
  { cbn. rewrite lookup_app_r by lia. now rewrite Nat.sub_diag. }
  cbn [heap trace] in Hrun, Hdf.
  exists df, ([frame_of_records []] ++ more). rewrite app_assoc.
  split; [exact Hrun | exact Hdf].
Qed.

End Extract.

(** ** [transform] *)

Lemma column_set_column (key : string) (vs : list cell) (f : DataFrame) :
  column key (set_column key vs f) = Some vs.
Proof.
  induction f as [|[k old] f IH]; cbn.
  - now rewrite String.eqb_refl.
  - destruct (String.eqb k key) eqn:Hk; cbn; now rewrite Hk.
Qed.

Lemma set_column_twice (key : string) (vs ws : list cell) (f : DataFrame) :
  set_column key ws (set_column key vs f) = set_column key ws f.
Proof.
  induction f as [|[k old] f IH]; cbn.
  - now rewrite String.eqb_refl.
  - destruct (String.eqb k key) eqn:Hk; cbn; rewrite Hk; [reflexivity|].
    now rewrite IH.
Qed.

Lemma comprehension_floats (xs : list float) :
  comprehension (fun c => match c with
                          | CFloat f => Return (CFloat f)
                          | CStr _ => OutOfModel
                          end) (map CFloat xs) = Return (map CFloat xs).
Proof. induction xs as [|x xs IH]; cbn; [reflexivity | now rewrite IH]. Qed.

Lemma getitem_column_run (df : ref) (key : string) (f : DataFrame)
    (vs : list cell) (st : state) :
  heap st !! df = Some f -> column key f = Some vs ->
  getitem_column df key st = (Return vs, st).
Proof.
  intros Hf Hc. unfold getitem_column.
  rewrite (bind_return _ _ st st f) by now apply read_frame_some.
  now rewrite Hc.
Qed.

Lemma setitem_column_run (df : ref) (key : string) (f : DataFrame)
    (vs : list cell) (st : state) :
  heap st !! df = Some f ->
  setitem_column df key vs st =
    (Return tt, {| heap := <[df := set_column key vs f]> (heap st);
                   trace := trace st |}).
Proof.
  intros Hf. unfold setitem_column.
  rewrite (bind_return _ _ st st f) by now apply read_frame_some.
  reflexivity.
Qed.

Lemma rename_run (df : ref) (columns : list (string * string)) (f : DataFrame)
    (st : state) :
  heap st !! df = Some f ->
  rename df columns st =
    (Return (length (heap st)),
     {| heap := heap st ++ [map (fun kv => (rename_key columns (fst kv), snd kv)) f];
        trace := trace st |}).
Proof.
  intros Hf. unfold rename.
  rewrite (bind_return _ _ st st f) by now apply read_frame_some.
  reflexivity.
Qed.

Lemma transform_run (df : ref) (st : state) (f : DataFrame)
    (vals : list cell) (xs : list float) :
  heap st !! df = Some f ->
  column "GDP_USD_millions" f = Some vals ->
  comprehension to_float vals = Return xs ->
  transform df st =
    (Return (length (heap st)),
     {| heap := <[df := overwritten f xs]> (heap st) ++ [renamed (overwritten f xs)];
        trace := trace st |}).
Proof.
  intros Hf Hcol Hxs. unfold transform.
  rewrite (bind_return _ _ _ _ _ (getitem_column_run _ _ _ _ _ Hf Hcol)).
  rewrite (bind_return _ _ st st xs) by (unfold lift; now rewrite Hxs).
  rewrite (bind_return _ _ _ _ _ (setitem_column_run _ _ _ _ _ Hf)).
  fold (overwritten f xs).
  pose proof (lookup_lt_Some _ _ _ Hf) as Hlt.
  set (st1 := {| heap := <[df := overwritten f xs]> (heap st); trace := trace st |}).
  assert (Hf1 : heap st1 !! df = Some (overwritten f xs)).
  { cbn. now apply list_lookup_insert_eq. }
  rewrite (bind_return _ _ st1 st1
             (map CFloat (map (fun x => np_round (Float.div x (Float.of_Z 1000)) 2) xs))).
  2:{ eapply getitem_column_run; [exact Hf1 | apply column_set_column]. }
  rewrite (bind_return _ _ st1 st1
             (map CFloat (map (fun x => np_round (Float.div x (Float.of_Z 1000)) 2) xs))).
  2:{ unfold astype_float, lift. now rewrite comprehension_floats. }
  rewrite (bind_return _ _ _ _ _ (setitem_column_run _ _ _ _ _ Hf1)).
  unfold overwritten at 1. rewrite set_column_twice. fold (overwritten f xs).
  cbn [heap trace st1]. rewrite list_insert_insert_eq.
  erewrite bind_return.
  2:{ apply rename_run. cbn [heap]. now apply list_lookup_insert_eq. }
  unfold ret. cbn [heap trace]. rewrite length_insert. reflexivity.
Qed.

Lemma transform_raise (df : ref) (st : state) (f : DataFrame)
    (vals : list cell) (e : exn) :
  heap st !! df = Some f ->
  column "GDP_USD_millions" f = Some vals ->
  comprehension to_float vals = Raise e ->
  transform df st = (Raise e, st).
Proof.
  intros Hf Hcol Hxs. unfold transform.
  rewrite (bind_return _ _ _ _ _ (getitem_column_run _ _ _ _ _ Hf Hcol)).
  rewrite (bind_raise _ _ st st e) by (unfold lift; now rewrite Hxs).
  reflexivity.
Qed.

Lemma comprehension_parsed (raws : list string) (xs : list float) :
  Forall2 (fun raw x => py_float (strip_commas raw) = Return x) raws xs ->
  comprehension to_float (map CStr raws) = Return xs.
Proof.
  induction 1 as [|raw x raws xs Hx _ IH]; cbn [map comprehension]; [reflexivity|].
  now rewrite to_float_str, Hx, IH.
Qed.

Lemma py_float_raises (s : string) (e : exn) :
  py_float s = Raise e -> e = ValueError.
Proof.
  unfold py_float.
  destruct (PyFloat.ascii_form _); [|discriminate].
  destruct (PyFloat.parse _); [discriminate|]. now intros [= <-].
Qed.

Lemma comprehension_first_unparsed (pre post : list string) (bad : string) :
  Forall (fun raw => exists x, py_float (strip_commas raw) = Return x) pre ->
  py_float (strip_commas bad) = Raise ValueError ->
  comprehension to_float (map CStr (pre ++ bad :: post)) = Raise ValueError.
Proof.
  intros Hpre Hbad. induction Hpre as [|raw pre [x Hx] _ IH].
  - cbn [app map comprehension]. now rewrite to_float_str, Hbad.
  - cbn [app map comprehension]. rewrite to_float_str, Hx.
    cbn [app map] in IH. now rewrite IH.
Qed.

Lemma column_frame_of_records (recs : list (string * string)) :
  column "GDP_USD_millions" (frame_of_records recs) =
  Some (map CStr (map snd recs)).
Proof. cbn. now rewrite map_map. Qed.

Lemma overwritten_records (recs : list (string * string)) (xs : list float) :
  overwritten (frame_of_records recs) xs =
  [("Country", map (fun r => CStr (fst r)) recs);
   ("GDP_USD_millions",
    map CFloat (map (fun x => np_round (Float.div x (Float.of_Z 1000)) 2) xs))].
Proof. reflexivity. Qed.

Lemma renamed_records (recs : list (string * string)) (xs : list float) :
  renamed (overwritten (frame_of_records recs) xs) =
  frame_of_billions (map (fun r => CStr (fst r)) recs)
    (map (fun x => np_round (Float.div x (Float.of_Z 1000)) 2) xs).
Proof. reflexivity. Qed.

(** ** Effects on the trace *)

Lemma keeps_trace_ret {A} (x : A) : keeps_trace (ret x).
Proof. now intros st. Qed.

Lemma keeps_trace_raise {A} (e : exn) : keeps_trace (@raise A e).
Proof. now intros st. Qed.

Lemma keeps_trace_lift {A} (r : result A) : keeps_trace (lift r).
Proof. now intros st. Qed.

Lemma keeps_trace_bind {A B} (m : M A) (k : A -> M B) :
  keeps_trace m -> (forall x, keeps_trace (k x)) -> keeps_trace (bind m k).
Proof.
  intros Hm Hk st. unfold bind. specialize (Hm st).
  destruct (m st) as [[x|e|] st1]; cbn in *; [|assumption..].
  now rewrite Hk.
Qed.

Lemma keeps_trace_getitem {A} (l : list A) (i : nat) : keeps_trace (getitem l i).
Proof. intros st. unfold getitem. now destruct (l !! i). Qed.

Lemma keeps_trace_new_frame (f : DataFrame) : keeps_trace (new_frame f).
Proof. now intros st. Qed.

Lemma keeps_trace_read_frame (r : ref) : keeps_trace (read_frame r).
Proof. intros st. unfold read_frame. now destruct (heap st !! r). Qed.

Lemma keeps_trace_pd_concat (a b : ref) : keeps_trace (pd_concat a b).
Proof.
  unfold pd_concat.
  apply keeps_trace_bind; [apply keeps_trace_read_frame | intros fa].
  apply keeps_trace_bind; [apply keeps_trace_read_frame | intros fb].
  destruct (decide _); [apply keeps_trace_new_frame | now intros st].
Qed.

Lemma keeps_trace_pd_DataFrame_row (d : list (string * node)) :
  keeps_trace (pd_DataFrame_row d).
Proof.
  unfold pd_DataFrame_row.
  apply keeps_trace_bind; [apply keeps_trace_lift | intros cols].
  apply keeps_trace_new_frame.
Qed.

Lemma keeps_trace_extract_row (row : node) (df : ref) :
  keeps_trace (extract_row row df).
Proof.
  unfold extract_row.
  destruct (negb _); [|apply keeps_trace_ret].
  apply keeps_trace_bind; [apply keeps_trace_getitem | intros col0].
  apply keeps_trace_bind.
  { destruct (find "a" col0); [|apply keeps_trace_ret].
    apply keeps_trace_bind; [apply keeps_trace_getitem | intros c2].
    apply keeps_trace_ret. }
  intros [|]; [|apply keeps_trace_ret].
  apply keeps_trace_bind; [apply keeps_trace_getitem | intros c0].
  apply keeps_trace_bind.
  { destruct (find "a" c0); [apply keeps_trace_ret | apply keeps_trace_raise]. }
  intros a.
  apply keeps_trace_bind; [apply keeps_trace_getitem | intros country].
  apply keeps_trace_bind; [apply keeps_trace_getitem | intros c2].
  apply keeps_trace_bind; [apply keeps_trace_getitem | intros gdp].
  apply keeps_trace_bind; [apply keeps_trace_pd_DataFrame_row | intros df1].
  apply keeps_trace_pd_concat.
Qed.

Lemma keeps_trace_for_each {A B} (body : A -> B -> M B) (l : list A) :
  (forall x acc, keeps_trace (body x acc)) ->
  forall acc, keeps_trace (for_each body l acc).
Proof.
  intros Hbody. induction l as [|x l IH]; intros acc; cbn [for_each].
  - apply keeps_trace_ret.
  - apply keeps_trace_bind; [apply Hbody | intros acc'; apply IH].
Qed.

Lemma extract_trace (W : World) (u : string) (attribs : list string) (st : state) :
  trace (snd (extract W u attribs st)) = trace st ++ [HttpGet u].
Proof.
  destruct (Z.eq_dec (status_code (http_response W u)) 200) as [Hs|Hs].
  - rewrite (extract_200 _ _ _ _ Hs).
    assert (Hk : keeps_trace
              (let* df := pd_DataFrame_columns attribs in
               let* table :=
                 getitem (find_all "tbody"
                            (html_parser W (text (http_response W u)))) 2 in
               for_each extract_row (find_all "tr" table) df)).
    { apply keeps_trace_bind; [apply keeps_trace_new_frame | intros df].
      apply keeps_trace_bind; [apply keeps_trace_getitem | intros table].
      apply keeps_trace_for_each. intros; apply keeps_trace_extract_row. }
    now rewrite Hk.
  - now rewrite (extract_not_200 _ _ _ _ Hs).
Qed.

(** ** A row that passes the marker test is never skipped *)

Lemma tag_contains_In (x : string) (t : node) :
  tag_contains x t = true <-> In (NavigableString x) (contents t).
Proof.
  unfold tag_contains. rewrite existsb_exists. split.
  - intros (c & Hin & Heq). destruct c as [s|nm ats cs]; [|discriminate].
    cbn in Heq. apply String.eqb_eq in Heq. now subst.
  - intros Hin. exists (NavigableString x). split; [exact Hin|].
    cbn. apply String.eqb_refl.
Qed.

Lemma extract_row_unmarked (row : node) (df : ref) (st : state)
    (c0 a c2 : node) (rest : list node) :
  cells row = c0 :: rest -> find "a" c0 = Some a -> cells row !! 2%nat = Some c2 ->
  tag_contains marker c2 = false ->
  extract_row row df st =
    (let* country := getitem (contents a) 0 in
     let* gdp := getitem (contents c2) 0 in
     let* df1 := pd_DataFrame_row [("Country", country); ("GDP_USD_millions", gdp)] in
     pd_concat df df1) st.
Proof.
  unfold extract_row, cells. intros Hc Ha H2 Hm.
  rewrite Hc in *. cbn. rewrite Ha. unfold marker in Hm.
  rewrite (bind_return _ _ st st true).
  2:{ rewrite (bind_return _ _ st st c2) by now apply getitem_some.
      unfold ret. now rewrite Hm. }
  cbn. rewrite Ha. cbn.
  destruct (contents a !! 0%nat) as [country|] eqn:Hg.
  - rewrite (bind_return _ _ st st country) by now apply getitem_some.
    rewrite (bind_return _ _ st st c2) by now apply getitem_some.
    symmetry. now rewrite (bind_return _ _ st st country) by now apply getitem_some.
  - rewrite (bind_raise _ _ st st IndexError) by now apply getitem_none.
    symmetry. now rewrite (bind_raise _ _ st st IndexError) by now apply getitem_none.
Qed.

Lemma getitem_state {A} (l : list A) (i : nat) (st st1 : state) (r : result A) :
  getitem l i st = (r, st1) -> st1 = st.
Proof. unfold getitem. destruct (l !! i); now intros [= _ <-]. Qed.

Lemma pd_DataFrame_row_returns (d : list (string * node)) (st st' : state) (r : ref) :
  pd_DataFrame_row d st = (Return r, st') ->
  length (heap st') = S (length (heap st)).
Proof.
  unfold pd_DataFrame_row, bind, lift, new_frame.
  destruct (comprehension _ d); try discriminate.
  intros [= _ <-]. cbn. rewrite length_app. cbn. lia.
Qed.

Lemma pd_concat_returns (a b : ref) (st st' : state) (r : ref) :
  pd_concat a b st = (Return r, st') ->
  length (heap st') = S (length (heap st)).
Proof.
  unfold pd_concat, bind, read_frame, new_frame, out_of_model.
  destruct (heap st !! a); try discriminate.
  destruct (heap st !! b); try discriminate.
  destruct (decide _); try discriminate.
  intros [= _ <-]. cbn. rewrite length_app. cbn. lia.
Qed.

Lemma emit_grows (df : ref) (st st' : state) (r : ref) (a c2 : node) :
  (let* country := getitem (contents a) 0 in
   let* gdp := getitem (contents c2) 0 in
   let* df1 := pd_DataFrame_row [("Country", country); ("GDP_USD_millions", gdp)] in
   pd_concat df df1) st = (Return r, st') ->
  length (heap st') = S (S (length (heap st))).
Proof.
  unfold bind at 1.
  destruct (getitem (contents a) 0 st) as [[country|e|] st1] eqn:H1;
    try discriminate.
  apply getitem_state in H1 as ->. unfold bind at 1.
  destruct (getitem (contents c2) 0 st) as [[gdp|e|] st1] eqn:H2;
    try discriminate.
  apply getitem_state in H2 as ->. unfold bind at 1.
  destruct (pd_DataFrame_row _ st) as [[df1|e|] st1] eqn:H3; try discriminate.
  intros H4. apply pd_DataFrame_row_returns in H3. apply pd_concat_returns in H4.
  lia.
Qed.

Lemma filter_count {A} (p : A -> bool) (l : list A) :
  length (List.filter p l) =
  (length l - length (List.filter (fun x => negb (p x)) l))%nat.
Proof.
  assert (H : (length (List.filter p l) +
               length (List.filter (fun x => negb (p x)) l) = length l)%nat).
  { induction l as [|x l IH]; [reflexivity|].
    cbn. destruct (p x); cbn; lia. }
  lia.
Qed.

(** * The properties *)

(** ** Transformer: the numeric map *)

(** Claim C1, as stated, fails.  The value is not the quotient rounded to 2
    decimal places: for 12,345 the binary64 quotient is above 12.345 and the
    nearest hundredth is 12.35, also when the exact tie 12.345 goes upwards,
    but [transform] gives 12.34; for 1,035 the exact quotient 1.035 is a tie
    whose even neighbour is 1.04, but [transform] gives 1.03. *)
Lemma transform_not_nearest_hundredth :
  exists df' st',
    transform 0%nat Sample.ties_store = (Return df', st') /\
    heap st' !! df' =
      Some (frame_of_billions [CStr "Xland"; CStr "Yland"]
              [hundredths 1234; hundredths 103]) /\
    py_float (strip_commas "12,345") = Return (Float.of_decimal false 12345 0) /\
    py_float (strip_commas "1,035") = Return (Float.of_decimal false 1035 0) /\
    nearest_hundredth
      (Float.div (Float.of_decimal false 12345 0) (Float.of_Z 1000)) =
      hundredths 1235 /\
    decimal_half_up 12345 = hundredths 1235 /\
    decimal_half_even 1035 = hundredths 104 /\
    hundredths 1234 <> hundredths 1235 /\
    hundredths 103 <> hundredths 104.
Proof.
  eexists _, _. split; [vm_compute; reflexivity|].
  split; [vm_compute; reflexivity|].
  repeat split; try (vm_compute; reflexivity); vm_compute; discriminate.
Qed.

Lemma float_eqb_eq (x y : float) : float_eqb x y = true -> x = y.
Proof.
  destruct x as [s|s| |s m e], y as [s'|s'| |s' m' e']; cbn; try discriminate;
    try reflexivity.
  - intros H. apply eqb_prop in H. now subst.
  - intros H. apply eqb_prop in H. now subst.
  - intros H. apply andb_true_iff in H as [H He]. apply andb_true_iff in H as [Hs Hm].
    apply eqb_prop in Hs. apply Pos.eqb_eq in Hm. apply Z.eqb_eq in He. now subst.
Qed.

Lemma whole_figures_below_spec (k : nat) :
  whole_figures_below k = true ->
  forall n, 0 <= n < Z.of_nat k -> whole_figure_rounds n = true.
Proof.
  induction k as [|k IH]; intros H n Hn; [lia|].
  cbn [whole_figures_below] in H. apply andb_true_iff in H as [Hk Hrest].
  destruct (Z.eq_dec n (Z.of_nat k)) as [->|Hne]; [exact Hk|].
  apply IH; [exact Hrest | lia].
Qed.

Lemma whole_figures_checked : whole_figures_below (Z.to_nat 10000) = true.
Proof. vm_compute. reflexivity. Qed.

(** Claim C1, amended.  On the frame of extracted records held at [df],
    when every raw figure parses once its commas are removed, [transform]
    returns a frame in which, record by record and in the same order, the
    value is the parsed figure divided by 1000, multiplied by 100, rounded
    to the nearest integer with ties to even and divided by 100, each step
    in binary64; that frame has the column [GDP_USD_billions] in place of
    [GDP_USD_millions] and the same countries.  For a whole figure below
    10,000 the value is the hundredth nearest to the exact quotient, except
    that a figure ending in 5, whose quotient lies halfway between two
    hundredths, goes to one of the two. *)
Theorem transform_billions (st : state) (df : ref)
    (recs : list (string * string)) (xs : list float) :
  heap st !! df = Some (frame_of_records recs) ->
  Forall2 (fun rec x => py_float (strip_commas (snd rec)) = Return x) recs xs ->
  (exists df' st',
     transform df st = (Return df', st') /\
     heap st' !! df' =
       Some [("Country", map (fun rec => CStr (fst rec)) recs);
             ("GDP_USD_billions", map (fun x => CFloat (billions x)) xs)]) /\
  (forall n, 0 <= n < 10000 ->
     (n mod 10 <> 5 ->
      billions (Float.of_decimal false n 0) = hundredths ((n + 5) / 10)) /\
     (n mod 10 = 5 ->
      billions (Float.of_decimal false n 0) = hundredths (n / 10) \/
      billions (Float.of_decimal false n 0) = hundredths (n / 10 + 1))).
Proof.
  intros Hdf Hxs. split.
  - assert (Hc : comprehension to_float (map CStr (map snd recs)) = Return xs).
    { apply comprehension_parsed. clear Hdf.
      induction Hxs; cbn; constructor; assumption. }
    eexists _, _. split.
    + exact (transform_run df st _ _ xs Hdf (column_frame_of_records recs) Hc).
    + cbn [heap]. rewrite renamed_records. unfold frame_of_billions.
      rewrite map_map. apply list_lookup_middle. now rewrite length_insert.
  - intros n Hn.
    pose proof (whole_figures_below_spec _ whole_figures_checked n) as Hcheck.
    rewrite Z2Nat.id in Hcheck by lia. specialize (Hcheck Hn).
    unfold whole_figure_rounds in Hcheck.
    destruct (Z.eqb_spec (n mod 10) 5) as [H5|H5].
    + split; [congruence|]. intros _.
      apply orb_true_iff in Hcheck as [H|H]; apply float_eqb_eq in H; auto.
    + split; [|congruence]. intros _. now apply float_eqb_eq.
Qed.

Lemma transform_billions_witness :
  exists df' st',
    transform 0%nat Sample.ties_store = (Return df', st') /\
    heap st' !! df' =
      Some [("Country", [CStr "Xland"; CStr "Yland"]);
            ("GDP_USD_billions", [CFloat (hundredths 1234); CFloat (hundredths 103)])].
Proof.
  refine (proj1 (transform_billions Sample.ties_store 0%nat
                   [("Xland", "12,345"); ("Yland", "1,035")]
                   [Float.of_decimal false 12345 0; Float.of_decimal false 1035 0]
                   _ _)).
  - reflexivity.
  - repeat constructor; vm_compute; reflexivity.
Defined.

(** ** Extractor: which rows become records *)

(** Claim C2, as stated, fails on a third cell that holds more than its
    figure: the record carries the first child of the cell, not the cell's
    text. *)
Lemma extract_footnote_counterexample :
  find_all "tr" (Sample.tbody [Sample.footnote_row]) = [Sample.footnote_row] /\
  claimed_records [Sample.footnote_row] = [("Xland", "12,345[n 1]")] /\
  exists df st',
    extract Sample.footnote_world url table_attribs Sample.start = (Return df, st') /\
    heap st' !! df = Some (frame_of_records [("Xland", "12,345")]) /\
    frame_of_records [("Xland", "12,345")] <>
    frame_of_records (claimed_records [Sample.footnote_row]).
Proof.
  split; [reflexivity|]. split; [reflexivity|].
  eexists _, _. split; [vm_compute; reflexivity|].
  split; [reflexivity | discriminate].
Qed.

(** Claim C2, amended.  When every row of the selected table is one the
    loop gets through, [extract] returns a frame that holds exactly one
    record for each row that has a data cell, a hyperlink in its first cell
    and no child of its third cell equal to the marker, and none for the
    other rows; the record is the first text node of the hyperlink and the
    first text node of the third cell; records follow the order of the rows,
    and their number is the number of rows less the number of excluded
    rows. *)
Theorem extract_records (W : World) (u : string) (st : state) (table : node) :
  status_code (http_response W u) = 200 ->
  find_all "tbody" (html_parser W (text (http_response W u))) !! 2%nat = Some table ->
  Forall (fun row => extractable row = true) (find_all "tr" table) ->
  exists df st',
    extract W u table_attribs st = (Return df, st') /\
    heap st' !! df =
      Some (frame_of_records
              (map record_of (List.filter qualifies (find_all "tr" table)))) /\
    length (map record_of (List.filter qualifies (find_all "tr" table))) =
      (length (find_all "tr" table) -
       length (List.filter (fun row => negb (qualifies row)) (find_all "tr" table)))%nat.
Proof.
  intros Hs Ht Hok.
  destruct (extract_extractable W u st table Hs Ht Hok) as (df & more & Hrun & Hdf).
  eexists _, _. split; [exact Hrun|]. split; [exact Hdf|].
  rewrite length_map. apply filter_count.
Qed.

Lemma extract_records_witness :
  exists df st',
    extract Sample.xland_world url table_attribs Sample.start = (Return df, st') /\
    heap st' !! df = Some (frame_of_records [("Xland", "12,345")]) /\
    1%nat = (1 - 0)%nat.
Proof.
  apply (extract_records Sample.xland_world url Sample.start
           (Sample.tbody [Sample.xland_row])).
  - reflexivity.
  - reflexivity.
  - repeat constructor.
Defined.

(** ** Extractor: the missing-data check *)

(** Claim C3, as stated, fails: a third cell whose text contains the marker
    inside a longer string is not excluded. *)
Lemma marker_substring_counterexample :
  cells Sample.dash_row !! 2%nat = Some (Sample.td [NavigableString "— (2022)"]) /\
  str_contains marker (get_text (Sample.td [NavigableString "— (2022)"])) = true /\
  exists df st',
    extract Sample.dash_world url table_attribs Sample.start = (Return df, st') /\
    heap st' !! df = Some (frame_of_records [("Yland", "— (2022)")]).
Proof.
  split; [reflexivity|]. split; [reflexivity|].
  eexists _, _. split; [vm_compute; reflexivity | reflexivity].
Qed.

(** Claim C3, amended.  The missing-data check is a membership test over
    the children of the third cell: a row with a hyperlink in its first cell
    and a third cell is skipped, leaving the frame and the store as they
    were, exactly when some child of the third cell is the text node
    consisting of the marker alone. *)
Theorem marker_check_is_membership (row : node) (df : ref) (st : state)
    (c0 a c2 : node) (rest : list node) :
  cells row = c0 :: rest ->
  find "a" c0 = Some a ->
  cells row !! 2%nat = Some c2 ->
  (extract_row row df st = (Return df, st) <->
   In (NavigableString marker) (contents c2)).
Proof.
  intros Hc Ha H2. rewrite <- tag_contains_In. split.
  - intros Hrun. destruct (tag_contains marker c2) eqn:Hm; [reflexivity|].
    rewrite (extract_row_unmarked _ _ _ _ _ _ _ Hc Ha H2 Hm) in Hrun.
    apply emit_grows in Hrun. lia.
  - intros Hm. exact (extract_row_marker _ _ _ _ _ _ _ Hc Ha H2 Hm).
Qed.

Lemma marker_check_is_membership_witness :
  extract_row Sample.missing_row 0%nat Sample.xland_store = (Return 0%nat, Sample.xland_store) <->
  In (NavigableString marker) [NavigableString "—"].
Proof.
  apply (marker_check_is_membership Sample.missing_row 0%nat Sample.xland_store
           (Sample.td [Sample.a "Zland"]) (Sample.a "Zland")
           (Sample.td [NavigableString "—"])
           [Sample.td [NavigableString "3"]; Sample.td [NavigableString "—"]]).
  - reflexivity.
  - reflexivity.
  - reflexivity.
Defined.

(** ** Extractor: the table it reads *)

(** Claim C4.  On a page with fewer than three [tbody] elements [extract]
    raises the index error of [tables[2]] and returns no frame; on a page
    with at least three, the rows it loops over are those of the third
    [tbody], index 2. *)
Theorem extract_selects_third_table (W : World) (u : string)
    (attribs : list string) (st : state) :
  status_code (http_response W u) = 200 ->
  ((length (find_all "tbody" (html_parser W (text (http_response W u)))) < 3)%nat ->
   exists st', extract W u attribs st = (Raise IndexError, st')) /\
  (forall table,
     find_all "tbody" (html_parser W (text (http_response W u))) !! 2%nat = Some table ->
     extract W u attribs st =
       for_each extract_row (find_all "tr" table) (length (heap st))
         {| heap := heap st ++ [map (fun c => (c, [])) attribs];
            trace := trace st ++ [HttpGet u] |}).
Proof.
  intros Hs. split.
  - intros Hlen. eexists. exact (extract_few_tables W u st attribs Hs Hlen).
  - intros table Ht. exact (extract_third_table W u st attribs table Hs Ht).
Qed.

Lemma extract_selects_third_table_witness :
  exists st',
    extract Sample.two_tables_world url table_attribs Sample.start =
      (Raise IndexError, st').
Proof.
  refine (proj1 (extract_selects_third_table Sample.two_tables_world url
                   table_attribs Sample.start eq_refl) _).
  vm_compute. lia.
Defined.

(** ** The scenario: Xland, 12,345 million *)

(** The steps of [np.round(12345.0 / 1000, 2)]: the quotient times 100 is
    exactly 1234.5, a tie, and [rint] takes the even neighbour 1234. *)
Lemma scale_12345_is_tie :
  Float.mul (Float.div (Float.of_Z 12345) (Float.of_Z 1000)) (Float.of_Z 100) =
  Float.of_decimal false 12345 (-1).
Proof. vm_compute. reflexivity. Qed.

Lemma rint_tie_to_even :
  Float.rint (Float.of_decimal false 12345 (-1)) = Float.of_Z 1234.
Proof. vm_compute. reflexivity. Qed.

Lemma np_round_12345 :
  py_float "12.34" =
  Return (np_round (Float.div (Float.of_Z 12345) (Float.of_Z 1000)) 2).
Proof. vm_compute. reflexivity. Qed.

(** Claim C5, as stated, fails: the transformed figure is below 12.35. *)
Lemma xland_not_12_35 :
  exists df st1 df' st2 x y,
    extract Sample.xland_world url table_attribs Sample.start = (Return df, st1) /\
    heap st1 !! df = Some (frame_of_records [("Xland", "12,345")]) /\
    transform df st1 = (Return df', st2) /\
    heap st2 !! df' = Some (frame_of_billions [CStr "Xland"] [x]) /\
    py_float "12.35" = Return y /\
    SFcompare x y = Some Lt.
Proof.
  eexists _, _, _, _, _, _.
  split; [vm_compute; reflexivity|].
  split; [reflexivity|].
  split; [vm_compute; reflexivity|].
  split; [reflexivity|].
  split; [vm_compute; reflexivity|].
  vm_compute. reflexivity.
Qed.

(** Claim C5, amended.  A row whose first-cell hyperlink holds the text
    Xland and whose third cell holds the text 12,345 yields the record
    (Xland, 12,345), and [transform] turns it into (Xland, 12.34): 12345/1000
    times 100 is exactly 1234.5 in binary64, which [rint] rounds to the even
    integer 1234. *)
Theorem xland_scenario (W : World) (u : string) (st : state)
    (table row c0 c1 c2 a : node) (rest : list node) :
  status_code (http_response W u) = 200 ->
  find_all "tbody" (html_parser W (text (http_response W u))) !! 2%nat = Some table ->
  find_all "tr" table = [row] ->
  cells row = c0 :: c1 :: c2 :: rest ->
  find "a" c0 = Some a ->
  contents a = [NavigableString "Xland"] ->
  contents c2 = [NavigableString "12,345"] ->
  exists df st1 df' st2 x,
    extract W u table_attribs st = (Return df, st1) /\
    heap st1 !! df = Some (frame_of_records [("Xland", "12,345")]) /\
    transform df st1 = (Return df', st2) /\
    py_float "12.34" = Return x /\
    heap st2 !! df' = Some (frame_of_billions [CStr "Xland"] [x]).
Proof.
  intros Hs Ht Hrows Hc Ha Hca Hcc.
  assert (Hm : tag_contains marker c2 = false).
  { unfold tag_contains. now rewrite Hcc. }
  assert (Hq : qualifies row = true).
  { unfold qualifies. rewrite Hc, Ha. cbn. now rewrite Hm. }
  assert (Hr : record_of row = ("Xland", "12,345")).
  { unfold record_of, first_text. now rewrite Hc, Ha, Hca, Hcc. }
  assert (Hok : Forall (fun r => extractable r = true) (find_all "tr" table)).
  { rewrite Hrows. repeat constructor. unfold extractable, starts_with_text.
    rewrite Hc, Ha. cbn. now rewrite Hm, Hca, Hcc. }
  destruct (extract_extractable W u st table Hs Ht Hok) as (df & more & Hrun & Hdf).
  rewrite Hrows in Hdf. cbn [List.filter] in Hdf. rewrite Hq in Hdf.
  cbn [map] in Hdf. rewrite Hr in Hdf.
  set (st1 := {| heap := heap st ++ more; trace := trace st ++ [HttpGet u] |}) in *.
  assert (Hx : comprehension to_float [CStr "12,345"] = Return [Float.of_Z 12345]).
  { vm_compute. reflexivity. }
  pose proof (transform_run df st1 _ _ _ Hdf eq_refl Hx) as Htr.
  eexists df, st1, _, _, _. split; [exact Hrun|]. split; [exact Hdf|].
  split; [exact Htr|]. split; [vm_compute; reflexivity|].
  cbn [heap]. apply list_lookup_middle. now rewrite length_insert.
Qed.

Lemma xland_scenario_witness :
  exists df st1 df' st2 x,
    extract Sample.xland_world url table_attribs Sample.start = (Return df, st1) /\
    heap st1 !! df = Some (frame_of_records [("Xland", "12,345")]) /\
    transform df st1 = (Return df', st2) /\
    py_float "12.34" = Return x /\
    heap st2 !! df' = Some (frame_of_billions [CStr "Xland"] [x]).
Proof.
  apply (xland_scenario Sample.xland_world url Sample.start
           (Sample.tbody [Sample.xland_row]) Sample.xland_row
           (Sample.td [Sample.a "Xland"]) (Sample.td [NavigableString "1"])
           (Sample.td [NavigableString "12,345"]) (Sample.a "Xland") []);
    reflexivity.
Defined.

(** ** Transformer: what it changes *)

(** Claim C6, as stated, fails: after [transform] the frame that was passed
    in no longer holds the raw strings. *)
Lemma transform_mutates_input :
  exists df' st' x,
    transform 0%nat Sample.xland_store = (Return df', st') /\
    heap Sample.xland_store !! 0%nat =
      Some [("Country", [CStr "Xland"]); ("GDP_USD_millions", [CStr "12,345"])] /\
    heap st' !! 0%nat =
      Some [("Country", [CStr "Xland"]); ("GDP_USD_millions", [CFloat x])] /\
    heap st' !! 0%nat <> heap Sample.xland_store !! 0%nat.
Proof.
  eexists _, _, _. split; [vm_compute; reflexivity|].
  split; [reflexivity|]. split; [reflexivity|]. discriminate.
Qed.

(** Claim C6, amended.  [transform] has no effect on the outside world and
    its result is determined by the frame it is given, but it changes that
    frame: the frame object passed in keeps its countries and its column
    names and has its [GDP_USD_millions] values overwritten by the converted
    numbers; the result is a new frame, and every other frame of the store
    is left as it was. *)
Theorem transform_frame_effect (st : state) (df : ref)
    (recs : list (string * string)) (xs : list float) :
  heap st !! df = Some (frame_of_records recs) ->
  Forall2 (fun rec x => py_float (strip_commas (snd rec)) = Return x) recs xs ->
  exists st',
    transform df st = (Return (length (heap st)), st') /\
    heap st' !! df =
      Some [("Country", map (fun rec => CStr (fst rec)) recs);
            ("GDP_USD_millions",
             map (fun x => CFloat (np_round (Float.div x (Float.of_Z 1000)) 2)) xs)] /\
    heap st' !! length (heap st) =
      Some [("Country", map (fun rec => CStr (fst rec)) recs);
            ("GDP_USD_billions",
             map (fun x => CFloat (np_round (Float.div x (Float.of_Z 1000)) 2)) xs)] /\
    (forall r : ref, r <> df -> r <> length (heap st) ->
       heap st' !! r = heap st !! r) /\
    trace st' = trace st.
Proof.
  intros Hdf Hxs.
  assert (Hc : comprehension to_float (map CStr (map snd recs)) = Return xs).
  { apply comprehension_parsed. clear Hdf.
    induction Hxs; cbn; constructor; assumption. }
  pose proof (lookup_lt_Some _ _ _ Hdf) as Hlt.
  eexists. split.
  { exact (transform_run df st _ _ xs Hdf (column_frame_of_records recs) Hc). }
  cbn [heap trace]. rewrite renamed_records, overwritten_records.
  unfold frame_of_billions. rewrite !map_map.
  split; [|split; [|split; [|reflexivity]]].
  - rewrite lookup_app_l by (now rewrite length_insert).
    now apply list_lookup_insert_eq.
  - apply list_lookup_middle. now rewrite length_insert.
  - intros r Hr Hfresh.
    destruct (Nat.lt_ge_cases r (length (heap st))) as [Hin|Hout].
    + rewrite lookup_app_l by (now rewrite length_insert).
      now apply list_lookup_insert_ne.
    + etransitivity; [|symmetry; apply lookup_ge_None; exact Hout].
      apply lookup_ge_None. rewrite length_app, length_insert. cbn.
      apply Nat.le_lteq in Hout as [Hgt|Heq]; [|now subst].
      rewrite Nat.add_1_r. exact Hgt.
Qed.

Lemma transform_frame_effect_witness :
  exists st',
    transform 0%nat Sample.xland_store = (Return 1%nat, st') /\
    heap st' !! 0%nat =
      Some [("Country", [CStr "Xland"]);
            ("GDP_USD_millions",
             [CFloat (np_round (Float.div (Float.of_Z 12345) (Float.of_Z 1000)) 2)])] /\
    heap st' !! 1%nat =
      Some [("Country", [CStr "Xland"]);
            ("GDP_USD_billions",
             [CFloat (np_round (Float.div (Float.of_Z 12345) (Float.of_Z 1000)) 2)])] /\
    (forall r : ref, r <> 0%nat -> r <> 1%nat ->
       heap st' !! r = heap Sample.xland_store !! r) /\
    trace st' = [].
Proof.
  apply (transform_frame_effect Sample.xland_store 0%nat [("Xland", "12,345")]
           [Float.of_Z 12345]).
  - reflexivity.
  - constructor; [vm_compute; reflexivity | constructor].
Defined.

(** ** Fetching the page *)

(** Claim C7, as stated, fails: a 204 response is a 2xx response, and
    [extract] raises on it instead of going on with the body. *)
Lemma extract_rejects_204 :
  200 <= status_code (http_response Sample.no_content_world url) <= 299 /\
  extract Sample.no_content_world url table_attribs Sample.start =
    (Raise (Exception "Failed to load page: 204"), after_get url Sample.start).
Proof. split; [vm_compute; split; discriminate | reflexivity]. Qed.

(** Claim C7, amended.  For every URL [extract] issues exactly one GET and
    nothing else; for every response whose status is not 200 it raises the
    exception carrying the status code; for a response with status 200 it
    goes on with the body text of the response, which is the page it
    parses. *)
Theorem extract_fetch (W : World) (u : string) (attribs : list string) (st : state) :
  trace (snd (extract W u attribs st)) = trace st ++ [HttpGet u] /\
  (status_code (http_response W u) <> 200 ->
   extract W u attribs st =
     (Raise (Exception ("Failed to load page: " +:+
                        pretty (status_code (http_response W u)))),
      after_get u st)) /\
  (status_code (http_response W u) = 200 ->
   extract W u attribs st =
     (let* df := pd_DataFrame_columns attribs in
      let* table :=
        getitem (find_all "tbody" (html_parser W (text (http_response W u)))) 2 in
      for_each extract_row (find_all "tr" table) df) (after_get u st)).
Proof.
  split; [apply extract_trace|]. split.
  - apply extract_not_200.
  - apply extract_200.
Qed.

Lemma extract_fetch_witness :
  extract Sample.no_content_world url table_attribs Sample.start =
    (Raise (Exception "Failed to load page: 204"), after_get url Sample.start).
Proof.
  refine (proj1 (proj2 (extract_fetch Sample.no_content_world url table_attribs
                          Sample.start)) _).
  discriminate.
Defined.

(** ** The query *)

(** Claim C8.  On a database that answers the query of the script with
    rows, [run_query] reads them and hands [None] back: the rows reach
    neither the caller nor any output, the read being the only effect. *)
Lemma run_query_returns_none :
  sql_rows Sample.query_world [] db_name query_statement = Sample.query_rows /\
  run_query Sample.query_world query_statement db_name Sample.start =
    (Return PyNone,
     {| heap := [Sample.query_rows];
        trace := [SqlRead db_name query_statement] |}) /\
  ~ exists r,
      fst (run_query Sample.query_world query_statement db_name Sample.start) =
      Return (PyFrame r).
Proof.
  split; [reflexivity|]. split; [reflexivity|]. intros [r Hr]. discriminate Hr.
Qed.

(** ** Parse errors *)

Lemma log_progress_run (W : World) (message : string) (st : state) :
  log_progress W message st =
    (Return PyNone,
     {| heap := heap st;
        trace := trace st ++
                 [LogAppend (strftime_now W (trace st) +:+ " : " +:+ message +:+
                             String "010" "")] |}).
Proof. reflexivity. Qed.

Lemma script_transform_raises (W : World) (st0 st2 : state) (df : ref) (e : exn) :
  extract W url table_attribs
    (snd (log_progress W "Preliminaries complete. Initiating ETL process" st0)) =
    (Return df, st2) ->
  transform df
    (snd (log_progress W "Data extraction complete. Initiating Transformation process"
            st2)) =
    (Raise e,
     snd (log_progress W "Data extraction complete. Initiating Transformation process"
            st2)) ->
  script W st0 =
    (Raise e,
     snd (log_progress W "Data extraction complete. Initiating Transformation process"
            st2)).
Proof.
  intros Hex Htr. unfold script.
  erewrite bind_return by apply log_progress_run.
  rewrite log_progress_run in Hex. cbn [snd] in Hex.
  erewrite bind_return by exact Hex.
  erewrite bind_return by apply log_progress_run.
  rewrite log_progress_run in Htr |- *. cbn [snd] in Htr |- *.
  erewrite bind_raise by exact Htr. reflexivity.
Qed.

(** Claim C9.  When [float] rejects a record's raw figure, with its commas
    removed, and accepts the figures of the records before it, [transform]
    raises the [ValueError] of [float] and leaves the store as it was; the
    script does not catch it: called in that state, it ends with the same
    error, the log entry before the call being its last effect. *)
Theorem transform_parse_error (st : state) (df : ref)
    (pre post : list (string * string)) (bad : string * string) :
  heap st !! df = Some (frame_of_records (pre ++ bad :: post)) ->
  Forall (fun rec => exists x, py_float (strip_commas (snd rec)) = Return x) pre ->
  py_float (strip_commas (snd bad)) = Raise ValueError ->
  transform df st = (Raise ValueError, st) /\
  forall (W : World) (st0 st2 : state),
    extract W url table_attribs
      (snd (log_progress W "Preliminaries complete. Initiating ETL process" st0)) =
      (Return df, st2) ->
    snd (log_progress W "Data extraction complete. Initiating Transformation process"
           st2) = st ->
    script W st0 = (Raise ValueError, st).
Proof.
  intros Hdf Hpre Hbad.
  assert (Hc : comprehension to_float
                 (map CStr (map snd (pre ++ bad :: post))) = Raise ValueError).
  { rewrite map_app. cbn [map]. apply comprehension_first_unparsed; [|exact Hbad].
    clear Hdf. induction Hpre; cbn; constructor; assumption. }
  assert (Htr : transform df st = (Raise ValueError, st)).
  { exact (transform_raise df st _ _ _ Hdf (column_frame_of_records _) Hc). }
  split; [exact Htr|].
  intros W st0 st2 Hrun Hst. subst st.
  exact (script_transform_raises W st0 st2 df ValueError Hrun Htr).
Qed.

Lemma transform_parse_error_witness :
  transform 4%nat Sample.dashes_store = (Raise ValueError, Sample.dashes_store) /\
  script Sample.dashes_world Sample.start = (Raise ValueError, Sample.dashes_store).
Proof.
  destruct (transform_parse_error Sample.dashes_store 4%nat
              [("Xland", "12,345")] [] ("Yland", "— (2022)"))
    as [Htr Hscript].
  - reflexivity.
  - repeat constructor. eexists. vm_compute. reflexivity.
  - vm_compute. reflexivity.
  - split; [exact Htr|].
    apply (Hscript Sample.dashes_world Sample.start
             (snd (extract Sample.dashes_world url table_attribs
                     (snd (log_progress Sample.dashes_world
                             "Preliminaries complete. Initiating ETL process"
                             Sample.start))))).
    + vm_compute. reflexivity.
    + reflexivity.
Defined.

(** ** Short rows *)

(** Claim C10.  A row with at least one data cell, a hyperlink in its first
    cell and fewer than three cells makes the loop raise the index error of
    [col[2]], whatever the frame and the store; and [extract] raises it on
    every page whose selected table has such a row after rows the loop gets
    through: the row is not skipped. *)
Theorem short_row_crashes (W : World) (u : string) (st : state)
    (table row c0 a : node) (pre post rest : list node) :
  status_code (http_response W u) = 200 ->
  find_all "tbody" (html_parser W (text (http_response W u))) !! 2%nat = Some table ->
  find_all "tr" table = pre ++ row :: post ->
  Forall (fun r => extractable r = true) pre ->
  cells row = c0 :: rest ->
  (length (cells row) < 3)%nat ->
  find "a" c0 = Some a ->
  (forall df st1, extract_row row df st1 = (Raise IndexError, st1)) /\
  exists st', extract W u table_attribs st = (Raise IndexError, st').
Proof.
  intros Hs Ht Hrows Hpre Hc Hlen Ha.
  assert (H2 : cells row !! 2%nat = None) by (apply lookup_ge_None; lia).
  split.
  - intros df st1. exact (extract_row_short row df st1 c0 rest a Hc Ha H2).
  - rewrite (extract_third_table W u st table_attribs table Hs Ht), Hrows.
    edestruct (for_each_short_row pre row post (length (heap st))
                 {| heap := heap st ++ [frame_of_records []];
                    trace := trace st ++ [HttpGet u] |} [] c0 a rest Hpre)
      as (more & Hrun); [|exact Hc|exact Ha|exact H2|].
    + cbn [heap]. now apply list_lookup_middle.
    + eexists. exact Hrun.
Qed.

Lemma short_row_crashes_witness :
  (forall df st1, extract_row Sample.short_row df st1 = (Raise IndexError, st1)) /\
  exists st',
    extract Sample.short_world url table_attribs Sample.start = (Raise IndexError, st').
Proof.
  apply (short_row_crashes Sample.short_world url Sample.start
           (Sample.tbody [Sample.xland_row; Sample.short_row]) Sample.short_row
           (Sample.td [Sample.a "Wland"]) (Sample.a "Wland")
           [Sample.xland_row] [] [Sample.td [NavigableString "4"]]).
  - reflexivity.
  - reflexivity.
  - reflexivity.
  - repeat constructor.
  - reflexivity.
  - vm_compute. lia.
  - reflexivity.
Defined.

(** * Further properties *)

(** ** The script from end to end *)

Lemma load_to_csv_run (df : ref) (path : string) (f : DataFrame) (st : state) :
  heap st !! df = Some f ->
  load_to_csv df path st =
    (Return PyNone, {| heap := heap st; trace := trace st ++ [CsvWrite path f] |}).
Proof.
  intros Hf. unfold load_to_csv.
  rewrite (bind_return _ _ st st f) by now apply read_frame_some.
  reflexivity.
Qed.

Lemma load_to_db_run (df : ref) (conn table : string) (f : DataFrame) (st : state) :
  heap st !! df = Some f ->
  load_to_db df conn table st =
    (Return PyNone,
     {| heap := heap st; trace := trace st ++ [SqlReplace conn table f] |}).
Proof.
  intros Hf. unfold load_to_db.
  rewrite (bind_return _ _ st st f) by now apply read_frame_some.
  reflexivity.
Qed.

Lemma script_after_transform (W : World) (st0 st2 st4 : state) (df df' : ref)
    (f : DataFrame) :
  extract W url table_attribs
    (snd (log_progress W "Preliminaries complete. Initiating ETL process" st0)) =
    (Return df, st2) ->
  transform df
    (snd (log_progress W "Data extraction complete. Initiating Transformation process"
            st2)) = (Return df', st4) ->
  heap st4 !! df' = Some f ->
  trace st4 =
    logged W (trace st2) "Data extraction complete. Initiating Transformation process" ->
  script W st0 =
    (Return PyNone,
     {| heap := heap st4 ++
                [sql_rows W
                   (logged W
                      (logged W
                         (logged W
                            (logged W (trace st4)
                               "Data transformation complete. Initiating loading process"
                             ++ [CsvWrite csv_path f]) "Data saved to CSV file"
                          ++ [SqlConnect db_name]) "SQL Connection initiated."
                       ++ [SqlReplace db_name table_name f])
                      "Data loaded to Database as table. Running the query")
                   db_name query_statement];
        trace := complete_trace W (trace st2) f |}).
Proof.
  intros Hex Htr Hf Ht. unfold script.
  erewrite bind_return by apply log_progress_run.
  rewrite log_progress_run in Hex. cbn [snd] in Hex.
  erewrite bind_return by exact Hex.
  erewrite bind_return by apply log_progress_run.
  rewrite log_progress_run in Htr. cbn [snd] in Htr.
  erewrite bind_return by exact Htr.
  erewrite bind_return by apply log_progress_run.
  erewrite bind_return by (apply load_to_csv_run; exact Hf).
  erewrite bind_return by apply log_progress_run.
  erewrite bind_return by reflexivity.
  erewrite bind_return by apply log_progress_run.
  erewrite bind_return by (apply load_to_db_run; exact Hf).
  erewrite bind_return by apply log_progress_run.
  erewrite bind_return by reflexivity.
  erewrite bind_return by apply log_progress_run.
  cbn [heap trace]. unfold sqlite3_close, bind, emit, ret. cbn [heap trace].
  unfold complete_trace, logged, log_line, query_statement. rewrite Ht.
  unfold logged, log_line. reflexivity.
Qed.

(** Property X1.  When [extract] returns the records [recs] and every figure parses, the
    script runs to its end: it writes one and the same transformed frame to
    the CSV file and to the database table, then runs the query, logs
    "Process Complete." and closes the connection, in that order and with
    nothing else. *)
Theorem script_completes (W : World) (st0 st2 : state) (df : ref)
    (recs : list (string * string)) (xs : list float) :
  extract W url table_attribs
    (snd (log_progress W "Preliminaries complete. Initiating ETL process" st0)) =
    (Return df, st2) ->
  heap st2 !! df = Some (frame_of_records recs) ->
  Forall2 (fun rec x => py_float (strip_commas (snd rec)) = Return x) recs xs ->
  exists st',
    script W st0 = (Return PyNone, st') /\
    trace st' =
      complete_trace W (trace st2)
        (frame_of_billions (map (fun rec => CStr (fst rec)) recs)
           (map (fun x => np_round (Float.div x (Float.of_Z 1000)) 2) xs)).
Proof.
  intros Hex Hdf Hxs.
  assert (Hc : comprehension to_float (map CStr (map snd recs)) = Return xs).
  { apply comprehension_parsed. clear Hdf.
    induction Hxs; cbn; constructor; assumption. }
  set (st3 := snd (log_progress W
                     "Data extraction complete. Initiating Transformation process" st2)).
  assert (Hdf3 : heap st3 !! df = Some (frame_of_records recs)) by exact Hdf.
  pose proof (transform_run df st3 _ _ xs Hdf3 (column_frame_of_records recs) Hc)
    as Htr.
  eexists. split.
  - eapply (script_after_transform W st0 st2 _ df _ _ Hex Htr).
    + cbn [heap]. apply list_lookup_middle. now rewrite length_insert.
    + reflexivity.
  - cbn [trace]. now rewrite renamed_records.
Qed.

Lemma script_completes_witness :
  exists st',
    script Sample.xland_world Sample.start = (Return PyNone, st') /\
    trace st' =
      complete_trace Sample.xland_world
        [log_line Sample.xland_world []
           "Preliminaries complete. Initiating ETL process"; HttpGet url]
        (frame_of_billions [CStr "Xland"]
           [np_round (Float.div (Float.of_Z 12345) (Float.of_Z 1000)) 2]).
Proof.
  apply (script_completes Sample.xland_world Sample.start
           {| heap := [frame_of_records []; frame_of_records [("Xland", "12,345")];
                       frame_of_records [("Xland", "12,345")]];
              trace := [log_line Sample.xland_world []
                          "Preliminaries complete. Initiating ETL process";
                        HttpGet url] |}
           2%nat [("Xland", "12,345")] [Float.of_Z 12345]).
  - vm_compute. reflexivity.
  - reflexivity.
  - constructor; [vm_compute; reflexivity | constructor].
Defined.

(** Property X2.  An exception of [extract] ends the script at once: the script raises the
    same exception, and its only effects are the first log line and the one
    GET; no file is written and no database is opened. *)
Theorem script_extract_failure (W : World) (st0 st2 : state) (e : exn) :
  extract W url table_attribs
    (snd (log_progress W "Preliminaries complete. Initiating ETL process" st0)) =
    (Raise e, st2) ->
  script W st0 = (Raise e, st2) /\
  trace st2 =
    logged W (trace st0) "Preliminaries complete. Initiating ETL process"
    ++ [HttpGet url].
Proof.
  intros Hex. split.
  - unfold script.
    erewrite bind_return by apply log_progress_run.
    rewrite log_progress_run in Hex. cbn [snd] in Hex.
    erewrite bind_raise by exact Hex. reflexivity.
  - pose proof (extract_trace W url table_attribs
                  (snd (log_progress W
                          "Preliminaries complete. Initiating ETL process" st0)))
      as Ht.
    rewrite Hex in Ht. exact Ht.
Qed.

Lemma script_extract_failure_witness :
  script Sample.no_content_world Sample.start =
    (Raise (Exception "Failed to load page: 204"),
     {| heap := [];
        trace := [log_line Sample.no_content_world []
                    "Preliminaries complete. Initiating ETL process";
                  HttpGet url] |}) /\
  [log_line Sample.no_content_world []
     "Preliminaries complete. Initiating ETL process"; HttpGet url] =
  logged Sample.no_content_world []
    "Preliminaries complete. Initiating ETL process" ++ [HttpGet url].
Proof.
  apply (script_extract_failure Sample.no_content_world Sample.start
           {| heap := [];
              trace := [log_line Sample.no_content_world []
                          "Preliminaries complete. Initiating ETL process";
                        HttpGet url] |}
           (Exception "Failed to load page: 204")).
  reflexivity.
Defined.

(** ** [transform]: failures and re-application *)

Lemma comprehension_to_float_raises (vals : list cell) (e : exn) :
  comprehension to_float vals = Raise e -> e = ValueError \/ e = AttributeError.
Proof.
  induction vals as [|v vals IH]; cbn [comprehension]; [discriminate|].
  destruct (to_float v) as [x|e'|] eqn:Hv.
  - destruct (comprehension to_float vals) as [ys|e''|]; try discriminate.
    intros [= <-]. now apply IH.
  - intros [= <-]. destruct v as [s|f]; cbn in Hv.
    + left. exact (py_float_raises _ _ Hv).
    + right. now inversion Hv.
  - discriminate.
Qed.

(** Property X3.  [transform] changes nothing when it fails: if it raises, the store and
    the trace are as before the call, and the exception is the [KeyError] of
    a missing [GDP_USD_millions] column, the [ValueError] of [float] or the
    [AttributeError] of [split] on a value that is not a string. *)
Theorem transform_failure_is_clean (df : ref) (st st' : state) (e : exn) :
  transform df st = (Raise e, st') ->
  st' = st /\
  (e = KeyError "GDP_USD_millions" \/ e = ValueError \/ e = AttributeError).
Proof.
  intros Hrun.
  destruct (heap st !! df) as [f|] eqn:Hf.
  2:{ unfold transform, getitem_column in Hrun.
      rewrite (bind_out_of_model _ _ st st) in Hrun; [discriminate|].
      rewrite (bind_out_of_model _ _ st st); [reflexivity|].
      unfold read_frame. now rewrite Hf. }
  destruct (column "GDP_USD_millions" f) as [vals|] eqn:Hcol.
  2:{ unfold transform in Hrun.
      rewrite (bind_raise _ _ st st (KeyError "GDP_USD_millions")) in Hrun.
      - inversion Hrun; subst. split; [reflexivity | now left].
      - unfold getitem_column.
        rewrite (bind_return _ _ st st f) by now apply read_frame_some.
        now rewrite Hcol. }
  destruct (comprehension to_float vals) as [xs|e'|] eqn:Hc.
  - rewrite (transform_run df st f vals xs Hf Hcol Hc) in Hrun. discriminate.
  - rewrite (transform_raise df st f vals e' Hf Hcol Hc) in Hrun.
    inversion Hrun; subst. split; [reflexivity|].
    right. now apply (comprehension_to_float_raises vals).
  - unfold transform in Hrun.
    rewrite (bind_return _ _ _ _ _ (getitem_column_run _ _ _ _ _ Hf Hcol)) in Hrun.
    rewrite (bind_out_of_model _ _ st st) in Hrun; [discriminate|].
    unfold lift. now rewrite Hc.
Qed.

Lemma transform_failure_is_clean_witness :
  Sample.text_store = Sample.text_store /\
  (ValueError = KeyError "GDP_USD_millions" \/ ValueError = ValueError \/
   ValueError = AttributeError).
Proof.
  apply (transform_failure_is_clean 2%nat Sample.text_store Sample.text_store
           ValueError).
  vm_compute. reflexivity.
Defined.

(** Property X4.  [transform] cannot be applied to its own result: the frame it returns
    has no [GDP_USD_millions] column any more, so a second [transform] on it
    raises [KeyError] and changes nothing. *)
Theorem transform_on_result_raises (st : state) (df : ref)
    (recs : list (string * string)) (xs : list float) :
  heap st !! df = Some (frame_of_records recs) ->
  Forall2 (fun rec x => py_float (strip_commas (snd rec)) = Return x) recs xs ->
  exists df' st',
    transform df st = (Return df', st') /\
    transform df' st' = (Raise (KeyError "GDP_USD_millions"), st').
Proof.
  intros Hdf Hxs.
  assert (Hc : comprehension to_float (map CStr (map snd recs)) = Return xs).
  { apply comprehension_parsed. clear Hdf.
    induction Hxs; cbn; constructor; assumption. }
  eexists _, _. split.
  - exact (transform_run df st _ _ xs Hdf (column_frame_of_records recs) Hc).
  - unfold transform.
    erewrite bind_raise; [reflexivity|].
    unfold getitem_column.
    erewrite bind_return.
    2:{ apply read_frame_some. cbn [heap]. apply list_lookup_middle.
        now rewrite length_insert. }
    rewrite renamed_records. reflexivity.
Qed.

Lemma transform_on_result_raises_witness :
  exists df' st',
    transform 0%nat Sample.xland_store = (Return df', st') /\
    transform df' st' = (Raise (KeyError "GDP_USD_millions"), st').
Proof.
  apply (transform_on_result_raises Sample.xland_store 0%nat [("Xland", "12,345")]
           [Float.of_Z 12345]).
  - reflexivity.
  - constructor; [vm_compute; reflexivity | constructor].
Defined.

(** Property X5.  Nor can it be applied again to the frame it was given: that frame now
    holds floats, and with at least one record the second call raises the
    [AttributeError] of [split] and changes nothing. *)
Theorem transform_on_input_again_raises (st : state) (df : ref)
    (recs : list (string * string)) (xs : list float) :
  heap st !! df = Some (frame_of_records recs) ->
  Forall2 (fun rec x => py_float (strip_commas (snd rec)) = Return x) recs xs ->
  recs <> [] ->
  exists df' st',
    transform df st = (Return df', st') /\
    transform df st' = (Raise AttributeError, st').
Proof.
  intros Hdf Hxs Hne.
  assert (Hc : comprehension to_float (map CStr (map snd recs)) = Return xs).
  { apply comprehension_parsed. clear Hdf Hne.
    induction Hxs; cbn; constructor; assumption. }
  pose proof (lookup_lt_Some _ _ _ Hdf) as Hlt.
  eexists _, _. split.
  - exact (transform_run df st _ _ xs Hdf (column_frame_of_records recs) Hc).
  - eapply transform_raise.
    + cbn [heap]. rewrite lookup_app_l by (now rewrite length_insert).
      now apply list_lookup_insert_eq.
    + apply column_set_column.
    + destruct Hxs as [|rec x recs xs Hx Hrest]; [congruence|]. reflexivity.
Qed.

Lemma transform_on_input_again_raises_witness :
  exists df' st',
    transform 0%nat Sample.xland_store = (Return df', st') /\
    transform 0%nat st' = (Raise AttributeError, st').
Proof.
  apply (transform_on_input_again_raises Sample.xland_store 0%nat
           [("Xland", "12,345")] [Float.of_Z 12345]).
  - reflexivity.
  - constructor; [vm_compute; reflexivity | constructor].
  - discriminate.
Defined.

(** ** [extract]: the store *)

Lemma only_allocates_ret {A} (x : A) : only_allocates (ret x).
Proof. intros st. exists []. cbn. now rewrite app_nil_r. Qed.

Lemma only_allocates_raise {A} (e : exn) : only_allocates (@raise A e).
Proof. intros st. exists []. cbn. now rewrite app_nil_r. Qed.

Lemma only_allocates_lift {A} (r : result A) : only_allocates (lift r).
Proof. intros st. exists []. cbn. now rewrite app_nil_r. Qed.

Lemma only_allocates_bind {A B} (m : M A) (k : A -> M B) :
  only_allocates m -> (forall x, only_allocates (k x)) -> only_allocates (bind m k).
Proof.
  intros Hm Hk st. unfold bind. destruct (Hm st) as [more1 H1].
  destruct (m st) as [[x|e|] st1]; cbn [snd] in *; [|now exists more1..].
  destruct (Hk x st1) as [more2 H2]. exists (more1 ++ more2).
  now rewrite H2, H1, app_assoc.
Qed.

Lemma only_allocates_getitem {A} (l : list A) (i : nat) :
  only_allocates (getitem l i).
Proof.
  unfold getitem. destruct (l !! i);
    [apply only_allocates_ret | apply only_allocates_raise].
Qed.

Lemma only_allocates_new_frame (f : DataFrame) : only_allocates (new_frame f).
Proof. intros st. now exists [f]. Qed.

Lemma only_allocates_read_frame (r : ref) : only_allocates (read_frame r).
Proof.
  intros st. exists []. unfold read_frame.
  destruct (heap st !! r); cbn; now rewrite app_nil_r.
Qed.

Lemma only_allocates_pd_concat (a b : ref) : only_allocates (pd_concat a b).
Proof.
  unfold pd_concat.
  apply only_allocates_bind; [apply only_allocates_read_frame | intros fa].
  apply only_allocates_bind; [apply only_allocates_read_frame | intros fb].
  destruct (decide _); [apply only_allocates_new_frame|].
  intros st. exists []. cbn. now rewrite app_nil_r.
Qed.

Lemma only_allocates_extract_row (row : node) (df : ref) :
  only_allocates (extract_row row df).
Proof.
  unfold extract_row.
  destruct (negb _); [|apply only_allocates_ret].
  apply only_allocates_bind; [apply only_allocates_getitem | intros col0].
  apply only_allocates_bind.
  { destruct (find "a" col0); [|apply only_allocates_ret].
    apply only_allocates_bind; [apply only_allocates_getitem | intros c2].
    apply only_allocates_ret. }
  intros [|]; [|apply only_allocates_ret].
  apply only_allocates_bind; [apply only_allocates_getitem | intros c0].
  apply only_allocates_bind.
  { destruct (find "a" c0); [apply only_allocates_ret | apply only_allocates_raise]. }
  intros a.
  apply only_allocates_bind; [apply only_allocates_getitem | intros country].
  apply only_allocates_bind; [apply only_allocates_getitem | intros c2].
  apply only_allocates_bind; [apply only_allocates_getitem | intros gdp].
  apply only_allocates_bind.
  { unfold pd_DataFrame_row.
    apply only_allocates_bind; [apply only_allocates_lift | intros cols].
    apply only_allocates_new_frame. }
  intros df1. apply only_allocates_pd_concat.
Qed.

Lemma only_allocates_for_each {A B} (body : A -> B -> M B) (l : list A) :
  (forall x acc, only_allocates (body x acc)) ->
  forall acc, only_allocates (for_each body l acc).
Proof.
  intros Hbody. induction l as [|x l IH]; intros acc; cbn [for_each].
  - apply only_allocates_ret.
  - apply only_allocates_bind; [apply Hbody | intros acc'; apply IH].
Qed.

Lemma only_allocates_extract (W : World) (u : string) (attribs : list string) :
  only_allocates (extract W u attribs).
Proof.
  unfold extract.
  apply only_allocates_bind.
  { intros st. exists []. cbn. now rewrite app_nil_r. }
  intros response. destruct (negb _); [apply only_allocates_raise|].
  apply only_allocates_bind; [apply only_allocates_new_frame | intros df].
  apply only_allocates_bind; [apply only_allocates_getitem | intros table].
  apply only_allocates_for_each. intros; apply only_allocates_extract_row.
Qed.

(** Property X7.  Whatever its outcome, [extract] leaves every frame that exists before
    the call as it is: it only creates frames ([transform], by contrast,
    writes into the frame it is given). *)
Theorem extract_keeps_frames (W : World) (u : string) (attribs : list string)
    (st : state) (r : ref) (f : DataFrame) :
  heap st !! r = Some f ->
  heap (snd (extract W u attribs st)) !! r = Some f.
Proof.
  intros Hf. destruct (only_allocates_extract W u attribs st) as [more ->].
  rewrite lookup_app_l by (apply lookup_lt_Some in Hf; exact Hf). exact Hf.
Qed.

Lemma extract_keeps_frames_witness :
  heap (snd (extract Sample.xland_world url table_attribs Sample.xland_store))
    !! 0%nat = Some (frame_of_records [("Xland", "12,345")]).
Proof.
  apply (extract_keeps_frames Sample.xland_world url table_attribs
           Sample.xland_store 0%nat (frame_of_records [("Xland", "12,345")])).
  reflexivity.
Defined.

(** ** [extract]: rows it cannot get through *)

Lemma for_each_raises_at (pre : list node) :
  forall (row : node) (post : list node) (df : ref) (st : state)
         (recs : list (string * string)) (e : exn),
  Forall (fun r => extractable r = true) pre ->
  heap st !! df = Some (frame_of_records recs) ->
  (forall df1 st1, extract_row row df1 st1 = (Raise e, st1)) ->
  exists more,
    for_each extract_row (pre ++ row :: post) df st =
      (Raise e, {| heap := heap st ++ more; trace := trace st |}).
Proof.
  induction pre as [|r pre IH]; intros row post df st recs e Hok Hdf Hrow.
  - exists []. cbn [app for_each].
    rewrite (bind_raise _ _ _ _ _ (Hrow df st)).
    rewrite app_nil_r. destruct st; reflexivity.
  - inversion Hok as [|? ? Hr Hpre]; subst.
    destruct (extract_row_extractable r df st recs Hr Hdf)
      as (df1 & more1 & Hrun & Hdf1).
    cbn [app for_each]. rewrite (bind_return _ _ _ _ _ Hrun).
    destruct (IH row post df1 {| heap := heap st ++ more1; trace := trace st |}
                _ e Hpre Hdf1 Hrow) as (more2 & Hrun2).
    cbn [heap trace] in Hrun2. exists (more1 ++ more2). now rewrite app_assoc.
Qed.

(** Property X9.  A row that passes the test of the loop but whose third cell is empty, or
    whose hyperlink is empty, makes the loop raise the index error of
    [contents[0]]; [extract] raises it when such a row comes after rows the
    loop gets through. *)
Theorem empty_cell_crashes (W : World) (u : string) (st : state)
    (table row c0 a c2 : node) (pre post rest : list node) :
  status_code (http_response W u) = 200 ->
  find_all "tbody" (html_parser W (text (http_response W u))) !! 2%nat = Some table ->
  find_all "tr" table = pre ++ row :: post ->
  Forall (fun r => extractable r = true) pre ->
  cells row = c0 :: rest ->
  find "a" c0 = Some a ->
  cells row !! 2%nat = Some c2 ->
  tag_contains marker c2 = false ->
  contents a = [] \/ contents c2 = [] ->
  (forall df st1, extract_row row df st1 = (Raise IndexError, st1)) /\
  exists st', extract W u table_attribs st = (Raise IndexError, st').
Proof.
  intros Hs Ht Hrows Hpre Hc Ha H2 Hm Hempty.
  assert (Hrow : forall df st1, extract_row row df st1 = (Raise IndexError, st1)).
  { intros df st1. rewrite (extract_row_unmarked _ _ _ _ _ _ _ Hc Ha H2 Hm).
    unfold bind, getitem, ret, raise.
    destruct Hempty as [He|He]; rewrite He; cbn; [reflexivity|].
    destruct (contents a !! 0%nat); reflexivity. }
  split; [exact Hrow|].
  rewrite (extract_third_table W u st table_attribs table Hs Ht), Hrows.
  edestruct (for_each_raises_at pre row post (length (heap st))
               {| heap := heap st ++ [frame_of_records []];
                  trace := trace st ++ [HttpGet u] |} [] IndexError Hpre)
    as (more & Hrun); [|exact Hrow|].
  - cbn [heap]. now apply list_lookup_middle.
  - eexists. exact Hrun.
Qed.

Lemma empty_cell_crashes_witness :
  (forall df st1, extract_row Sample.empty_row df st1 = (Raise IndexError, st1)) /\
  exists st',
    extract Sample.empty_world url table_attribs Sample.start = (Raise IndexError, st').
Proof.
  apply (empty_cell_crashes Sample.empty_world url Sample.start
           (Sample.tbody [Sample.xland_row; Sample.empty_row]) Sample.empty_row
           (Sample.td [Sample.a "Uland"]) (Sample.a "Uland") (Sample.td [])
           [Sample.xland_row] [] [Sample.td [NavigableString "6"]; Sample.td []]).
  - reflexivity.
  - reflexivity.
  - reflexivity.
  - repeat constructor.
  - reflexivity.
  - reflexivity.
  - reflexivity.
  - reflexivity.
  - now right.
Defined.


(** ** [extract]: when it returns *)

Lemma append_rows_names (fa fb : DataFrame) :
  map fst fa = map fst fb -> map fst (append_rows fa fb) = map fst fa.
Proof.
  unfold append_rows. revert fb.
  induction fa as [|[k vs] fa IH]; intros [|[k' ws] fb]; cbn; try discriminate;
    [reflexivity|].
  intros [= -> H]. f_equal. now apply IH.
Qed.

Lemma scalar_raises (v : node) (e : exn) : scalar v = Raise e -> e = ValueError.
Proof.
  destruct v as [s|nm ats [|[s|nm' ats' cs'] [|c cs]]]; cbn; try discriminate;
    now intros [= <-].
Qed.

Lemma pd_DataFrame_row_scalars (v1 v2 : node) (c1 c2 : cell) (st : state) :
  scalar v1 = Return c1 -> scalar v2 = Return c2 ->
  pd_DataFrame_row [("Country", v1); ("GDP_USD_millions", v2)] st =
    (Return (length (heap st)),
     {| heap := heap st ++ [[("Country", [c1]); ("GDP_USD_millions", [c2])]];
        trace := trace st |}).
Proof.
  intros H1 H2. unfold pd_DataFrame_row, bind, lift. cbn. now rewrite H1, H2.
Qed.

Lemma pd_DataFrame_row_raises (v1 v2 : node) (st : state) :
  (exists e, scalar v1 = Raise e) \/
  ((exists c1, scalar v1 = Return c1) /\ exists e, scalar v2 = Raise e) ->
  pd_DataFrame_row [("Country", v1); ("GDP_USD_millions", v2)] st =
    (Raise ValueError, st).
Proof.
  unfold pd_DataFrame_row, bind, lift. cbn.
  intros [[e H1]|[[c1 H1] [e H2]]].
  - rewrite H1. now rewrite (scalar_raises _ _ H1).
  - rewrite H1, H2. now rewrite (scalar_raises _ _ H2).
Qed.

Lemma extract_row_processable (row : node) (df : ref) (st : state) (f : DataFrame) :
  processable row = true ->
  heap st !! df = Some f ->
  map fst f = table_attribs ->
  exists df' more f',
    extract_row row df st =
      (Return df', {| heap := heap st ++ more; trace := trace st |}) /\
    (heap st ++ more) !! df' = Some f' /\
    map fst f' = table_attribs.
Proof.
  intros Hok Hdf Hnames. unfold processable in Hok.
  assert (Hskip : forall st0 : state,
             st0 = {| heap := heap st0; trace := trace st0 |}).
  { now intros [h t]. }
  destruct (cells row) as [|c0 rest] eqn:Hc.
  { exists df, [], f. rewrite extract_row_no_cells by exact Hc.
    rewrite !app_nil_r. repeat split; [f_equal; apply Hskip | exact Hdf | exact Hnames]. }
  destruct (find "a" c0) as [a|] eqn:Ha.
  2:{ exists df, [], f. rewrite (extract_row_no_link _ _ _ _ _ Hc Ha).
      rewrite !app_nil_r.
      repeat split; [f_equal; apply Hskip | exact Hdf | exact Hnames]. }
  destruct ((c0 :: rest) !! 2%nat) as [c2|] eqn:H2; [|discriminate].
  rewrite <- Hc in H2.
  destruct (tag_contains marker c2) eqn:Hm.
  { exists df, [], f. rewrite (extract_row_marker _ _ _ _ _ _ _ Hc Ha H2 Hm).
    rewrite !app_nil_r.
    repeat split; [f_equal; apply Hskip | exact Hdf | exact Hnames]. }
  cbn in Hok.
  destruct (contents a) as [|v1 ta] eqn:Hca; [discriminate|].
  destruct (contents c2) as [|v2 tc] eqn:Hcc; [discriminate|].
  destruct (scalar v1) as [x1|e1|] eqn:Hs1; try discriminate.
  destruct (scalar v2) as [x2|e2|] eqn:Hs2; try discriminate.
  rewrite (extract_row_unmarked _ _ _ _ _ _ _ Hc Ha H2 Hm).
  rewrite Hca, Hcc.
  rewrite (bind_return _ _ st st v1) by reflexivity.
  rewrite (bind_return _ _ st st v2) by reflexivity.
  erewrite bind_return by (apply pd_DataFrame_row_scalars; eassumption).
  erewrite pd_concat_run; cbn [heap trace].
  - exists (S (length (heap st))),
      [[("Country", [x1]); ("GDP_USD_millions", [x2])];
       append_rows f [("Country", [x1]); ("GDP_USD_millions", [x2])]],
      (append_rows f [("Country", [x1]); ("GDP_USD_millions", [x2])]).
    split; [|split].
    + rewrite length_app, <- app_assoc. cbn. repeat f_equal. lia.
    + change (heap st ++ [[("Country", [x1]); ("GDP_USD_millions", [x2])];
                          append_rows f [("Country", [x1]); ("GDP_USD_millions", [x2])]])
        with (heap st ++ [[("Country", [x1]); ("GDP_USD_millions", [x2])]] ++
                         [append_rows f [("Country", [x1]); ("GDP_USD_millions", [x2])]]).
      rewrite app_assoc. apply list_lookup_middle. rewrite length_app. cbn.
      now rewrite Nat.add_1_r.
    + rewrite append_rows_names; [exact Hnames | now rewrite Hnames].
  - rewrite lookup_app_l by (apply lookup_lt_Some in Hdf; exact Hdf). exact Hdf.
  - now apply list_lookup_middle.
  - now rewrite Hnames.
Qed.

Lemma for_each_processable (rows : list node) :
  forall (df : ref) (st : state) (f : DataFrame),
  Forall (fun row => processable row = true) rows ->
  heap st !! df = Some f ->
  map fst f = table_attribs ->
  exists df' more,
    for_each extract_row rows df st =
      (Return df', {| heap := heap st ++ more; trace := trace st |}).
Proof.
  induction rows as [|row rows IH]; intros df st f Hok Hdf Hnames.
  - exists df, []. cbn. rewrite app_nil_r. unfold ret. destruct st; reflexivity.
  - inversion Hok as [|? ? Hrow Hrows]; subst.
    destruct (extract_row_processable row df st f Hrow Hdf Hnames)
      as (df1 & more1 & f1 & Hrun & Hdf1 & Hn1).
    cbn [for_each]. rewrite (bind_return _ _ _ _ _ Hrun).
    destruct (IH df1 {| heap := heap st ++ more1; trace := trace st |} f1
                Hrows Hdf1 Hn1) as (df2 & more2 & Hrun2).
    cbn [heap trace] in Hrun2.
    exists df2, (more1 ++ more2). now rewrite app_assoc.
Qed.

Lemma extract_row_stuck (row : node) (df : ref) (st : state) :
  processable row = false -> covered row = true ->
  extract_row row df st = (Raise IndexError, st) \/
  extract_row row df st = (Raise ValueError, st).
Proof.
  unfold processable, covered. intros Hno Hcov.
  destruct (cells row) as [|c0 rest] eqn:Hc; [discriminate|].
  destruct (find "a" c0) as [a|] eqn:Ha; [|discriminate].
  rewrite <- Hc in Hno, Hcov.
  destruct (cells row !! 2%nat) as [c2|] eqn:H2.
  2:{ left. exact (extract_row_short _ _ _ _ _ _ Hc Ha H2). }
  destruct (tag_contains marker c2) eqn:Hm; [discriminate|].
  rewrite (extract_row_unmarked _ _ _ _ _ _ _ Hc Ha H2 Hm).
  cbn in Hno, Hcov.
  destruct (contents a) as [|v1 ta] eqn:Hca.
  { left. now rewrite (bind_raise _ _ st st IndexError). }
  rewrite (bind_return _ _ st st v1) by reflexivity.
  destruct (contents c2) as [|v2 tc] eqn:Hcc.
  { left. now rewrite (bind_raise _ _ st st IndexError). }
  rewrite (bind_return _ _ st st v2) by reflexivity.
  right. erewrite bind_raise; [reflexivity|].
  apply pd_DataFrame_row_raises.
  destruct (scalar v1) as [x1|e1|]; [|left; eauto|discriminate].
  right. split; [eauto|].
  destruct (scalar v2) as [x2|e2|]; [discriminate|eauto|discriminate].
Qed.

Lemma for_each_stuck (pre : list node) :
  forall (row : node) (post : list node) (df : ref) (st : state) (f : DataFrame),
  Forall (fun r => processable r = true) pre ->
  heap st !! df = Some f ->
  map fst f = table_attribs ->
  processable row = false -> covered row = true ->
  exists st' e,
    for_each extract_row (pre ++ row :: post) df st = (Raise e, st') /\
    (e = IndexError \/ e = ValueError).
Proof.
  induction pre as [|r pre IH]; intros row post df st f Hok Hdf Hnames Hno Hcov.
  - cbn [app for_each].
    destruct (extract_row_stuck row df st Hno Hcov) as [Hrun|Hrun];
      rewrite (bind_raise _ _ _ _ _ Hrun); eauto.
  - inversion Hok as [|? ? Hr Hpre]; subst.
    destruct (extract_row_processable r df st f Hr Hdf Hnames)
      as (df1 & more1 & f1 & Hrun & Hdf1 & Hn1).
    cbn [app for_each]. rewrite (bind_return _ _ _ _ _ Hrun).
    exact (IH row post df1 {| heap := heap st ++ more1; trace := trace st |} f1
             Hpre Hdf1 Hn1 Hno Hcov).
Qed.

(** Property X8.  On a response with status 200 and a page with a third
    [tbody], [extract] returns a frame when every row of that [tbody] is one
    the loop gets through: a hyperlinked row has a third cell, and in a
    qualifying row the first child of the hyperlink and of the third cell is
    a text node or a tag holding one text node.  It raises [IndexError] or
    [ValueError] at the first row that is not, when the first children of
    that row are not tags holding a single tag. *)
Theorem extract_returns_or_raises (W : World) (u : string) (st : state)
    (table : node) :
  status_code (http_response W u) = 200 ->
  find_all "tbody" (html_parser W (text (http_response W u))) !! 2%nat = Some table ->
  (Forall (fun row => processable row = true) (find_all "tr" table) ->
   exists df st', extract W u table_attribs st = (Return df, st')) /\
  (forall pre row post,
     find_all "tr" table = pre ++ row :: post ->
     Forall (fun r => processable r = true) pre ->
     processable row = false -> covered row = true ->
     exists st' e,
       extract W u table_attribs st = (Raise e, st') /\
       (e = IndexError \/ e = ValueError)).
Proof.
  intros Hs Ht.
  rewrite (extract_third_table W u st table_attribs table Hs Ht).
  assert (Hdf : heap {| heap := heap st ++ [map (fun c => (c, [])) table_attribs];
                        trace := trace st ++ [HttpGet u] |} !! length (heap st) =
                Some (map (fun c => (c, [])) table_attribs)).
  { cbn [heap]. now apply list_lookup_middle. }
  split.
  - intros Hok.
    destruct (for_each_processable _ _ _ _ Hok Hdf eq_refl) as (df & more & Hrun).
    eauto.
  - intros pre row post Hrows Hpre Hno Hcov. rewrite Hrows.
    exact (for_each_stuck pre row post _ _ _ Hpre Hdf eq_refl Hno Hcov).
Qed.

Lemma extract_returns_or_raises_witness :
  (exists df st',
     extract Sample.bold_world url table_attribs Sample.start = (Return df, st')) /\
  (exists st' e,
     extract Sample.break_world url table_attribs Sample.start = (Raise e, st') /\
     (e = IndexError \/ e = ValueError)).
Proof.
  split.
  - apply (proj1 (extract_returns_or_raises Sample.bold_world url Sample.start
                    (Sample.tbody [Sample.bold_row]) eq_refl eq_refl)).
    repeat constructor.
  - apply (proj2 (extract_returns_or_raises Sample.break_world url Sample.start
                    (Sample.tbody [Sample.bold_row; Sample.break_row])
                    eq_refl eq_refl)
             [Sample.bold_row] Sample.break_row []).
    + reflexivity.
    + repeat constructor.
    + reflexivity.
    + reflexivity.
Defined.

(** ** The figures [transform] accepts *)

Lemma strip_commas_chars (s : string) :
  list_ascii_of_string (strip_commas s) =
  List.filter (fun c => negb (Ascii.eqb c ",")) (list_ascii_of_string s).
Proof.
  induction s as [|c s IH]; [reflexivity|].
  cbn. destruct (Ascii.eqb c ","); cbn; now rewrite IH.
Qed.

Lemma has_comma_strip_commas (s : string) : has_comma (strip_commas s) = false.
Proof.
  unfold has_comma. rewrite strip_commas_chars.
  induction (list_ascii_of_string s) as [|c l IH]; [reflexivity|].
  cbn. destruct (Ascii.eqb c ",") eqn:Hc; cbn; [exact IH|]. now rewrite Hc.
Qed.

Lemma strip_commas_without (s : string) :
  has_comma s = false -> strip_commas s = s.
Proof.
  unfold has_comma. induction s as [|c s IH]; [reflexivity|].
  cbn. destruct (Ascii.eqb c ","); cbn; [discriminate|].
  intros H. now rewrite IH.
Qed.

(** Property X10.  The string [transform] hands to [float] never holds a comma, wherever
    the commas stood in the raw figure, and a raw figure without commas is
    handed over unchanged. *)
Theorem joined_has_no_comma (x : string) :
  has_comma (str_join "" (str_split "," x)) = false /\
  (has_comma x = false -> str_join "" (str_split "," x) = x).
Proof.
  rewrite str_join_split. split.
  - apply has_comma_strip_commas.
  - apply strip_commas_without.
Qed.

Lemma joined_has_no_comma_witness :
  str_join "" (str_split "," "12345") = "12345".
Proof.
  refine (proj2 (joined_has_no_comma "12345") _). reflexivity.
Defined.

Lemma digit_facts (c : ascii) :
  PyFloat.is_digit c = true ->
  PyFloat.is_space c = false /\ PyFloat.is_ascii c = true /\
  Ascii.eqb c "_" = false /\ Ascii.eqb c "-" = false /\ Ascii.eqb c "+" = false /\
  forall (s : bool) (l : list ascii), PyFloat.inf_or_nan s (c :: l) = None.
Proof.
  destruct c as [[] [] [] [] [] [] [] []]; cbn; try discriminate; intros _;
    repeat split; reflexivity.
Qed.

Lemma span_all_digits (l : list ascii) :
  forallb PyFloat.is_digit l = true -> PyFloat.span_digits l = (l, []).
Proof.
  induction l as [|c l IH]; [reflexivity|].
  cbn. intros H. apply andb_true_iff in H as [Hc Hl].
  now rewrite Hc, (IH Hl).
Qed.

Lemma drop_spaces_digits (l : list ascii) :
  match l with c :: _ => PyFloat.is_digit c = true | [] => True end ->
  PyFloat.drop_spaces l = l.
Proof.
  destruct l as [|c l]; [reflexivity|]. intros Hc. cbn.
  now rewrite (proj1 (digit_facts c Hc)).
Qed.

Lemma forallb_rev {A} (p : A -> bool) (l : list A) :
  forallb p l = true -> forallb p (rev l) = true.
Proof.
  rewrite !forallb_forall. intros H x Hx. apply H. now apply in_rev.
Qed.

Lemma head_of_all {A} (p : A -> bool) (l : list A) :
  forallb p l = true ->
  match l with c :: _ => p c = true | [] => True end.
Proof.
  destruct l as [|c l]; [easy|]. cbn. intros H.
  now apply andb_true_iff in H as [Hc _].
Qed.

Lemma strip_digits (l : list ascii) :
  forallb PyFloat.is_digit l = true -> PyFloat.strip l = l.
Proof.
  intros H. unfold PyFloat.strip.
  rewrite (drop_spaces_digits l) by now apply head_of_all.
  rewrite (drop_spaces_digits (rev l))
    by (apply (head_of_all PyFloat.is_digit); now apply forallb_rev).
  apply rev_involutive.
Qed.

Lemma underscores_ok_digits (l : list ascii) :
  forallb PyFloat.is_digit l = true ->
  forall prev,
    match prev with Some p => Ascii.eqb p "_" = false | None => True end ->
    PyFloat.underscores_ok prev l = true.
Proof.
  induction l as [|c l IH]; intros H prev Hprev.
  - cbn. destruct prev as [p|]; [now rewrite Hprev | reflexivity].
  - cbn in H. apply andb_true_iff in H as [Hc Hl].
    destruct (digit_facts c Hc) as (_ & _ & Hu & _).
    cbn [PyFloat.underscores_ok]. rewrite Hu, Hc, orb_true_r. cbn.
    apply IH; [exact Hl | exact Hu].
Qed.

Lemma remove_underscores_digits (l : list ascii) :
  forallb PyFloat.is_digit l = true -> PyFloat.remove_underscores l = l.
Proof.
  unfold PyFloat.remove_underscores.
  induction l as [|c l IH]; [reflexivity|].
  cbn. intros H. apply andb_true_iff in H as [Hc Hl].
  destruct (digit_facts c Hc) as (_ & _ & Hu & _).
  rewrite Hu. cbn. now rewrite (IH Hl).
Qed.

Lemma ascii_form_digits (l : list ascii) :
  forallb PyFloat.is_digit l = true -> PyFloat.ascii_form l = Some l.
Proof.
  intros H. unfold PyFloat.ascii_form.
  replace (forallb PyFloat.is_ascii l) with true; [reflexivity|].
  symmetry. induction l as [|c l IH]; [reflexivity|].
  cbn in *. apply andb_true_iff in H as [Hc Hl].
  destruct (digit_facts c Hc) as (_ & Hm & _).
  now rewrite Hm, (IH Hl).
Qed.

Lemma parse_digits (l : list ascii) :
  l <> [] -> forallb PyFloat.is_digit l = true ->
  PyFloat.parse l = Some (Float.of_decimal false (PyFloat.digits_to_Z l) 0).
Proof.
  intros Hne H. unfold PyFloat.parse.
  rewrite (underscores_ok_digits l H None I).
  rewrite (remove_underscores_digits l H), (strip_digits l H).
  destruct l as [|c l]; [congruence|].
  pose proof H as Hall. cbn in H. apply andb_true_iff in H as [Hc Hl].
  destruct (digit_facts c Hc) as (_ & _ & _ & Hminus & Hplus & Hinf).
  unfold PyFloat.take_sign. rewrite Hminus, Hplus, Hinf.
  unfold PyFloat.number. rewrite (span_all_digits _ Hall).
  rewrite app_nil_r. reflexivity.
Qed.

(** Property X11.  A raw figure made of decimal digits and commas, the commas standing
    anywhere, is never a parse error: [float] returns the number its digits
    denote, read as one integer and rounded once to binary64.  The commas
    are not checked to group the digits by three. *)
Theorem to_float_digits (raw : string) :
  digits_only (strip_commas raw) = true ->
  to_float (CStr raw) =
    Return (Float.of_decimal false (digits_value (strip_commas raw)) 0).
Proof.
  rewrite to_float_str. unfold digits_only, digits_value, py_float.
  destruct (list_ascii_of_string (strip_commas raw)) as [|c l] eqn:Hl;
    [discriminate|].
  intros H. rewrite (ascii_form_digits _ H).
  now rewrite (parse_digits (c :: l)) by (congruence || exact H).
Qed.

Lemma to_float_digits_witness :
  to_float (CStr "1,23,4,5,") =
    Return (Float.of_decimal false (digits_value (strip_commas "1,23,4,5,")) 0).
Proof.
  apply (to_float_digits "1,23,4,5,"). reflexivity.
Defined.

Lemma space_facts (c : ascii) :
  PyFloat.is_space c = true ->
  PyFloat.is_ascii c = true /\ Ascii.eqb c "_" = false.
Proof.
  destruct c as [[] [] [] [] [] [] [] []]; cbn; try discriminate; intros _;
    split; reflexivity.
Qed.

Lemma drop_spaces_all (l : list ascii) :
  forallb PyFloat.is_space l = true -> PyFloat.drop_spaces l = [].
Proof.
  induction l as [|c l IH]; [reflexivity|].
  cbn. intros H. apply andb_true_iff in H as [Hc Hl]. now rewrite Hc, (IH Hl).
Qed.

Lemma underscores_ok_spaces (l : list ascii) :
  forallb PyFloat.is_space l = true ->
  forall prev,
    match prev with Some p => Ascii.eqb p "_" = false | None => True end ->
    PyFloat.underscores_ok prev l = true.
Proof.
  induction l as [|c l IH]; intros H prev Hprev.
  - cbn. destruct prev as [p|]; [now rewrite Hprev | reflexivity].
  - cbn in H. apply andb_true_iff in H as [Hc Hl].
    destruct (space_facts c Hc) as (_ & Hu).
    cbn [PyFloat.underscores_ok]. rewrite Hu.
    replace (negb match prev with Some p => Ascii.eqb p "_" | None => false end)
      with true by (destruct prev; [now rewrite Hprev | reflexivity]).
    cbn. apply IH; [exact Hl | exact Hu].
Qed.

Lemma remove_underscores_spaces (l : list ascii) :
  forallb PyFloat.is_space l = true -> PyFloat.remove_underscores l = l.
Proof.
  unfold PyFloat.remove_underscores.
  induction l as [|c l IH]; [reflexivity|].
  cbn. intros H. apply andb_true_iff in H as [Hc Hl].
  destruct (space_facts c Hc) as (_ & Hu).
  rewrite Hu. cbn. now rewrite (IH Hl).
Qed.

Lemma ascii_form_spaces (l : list ascii) :
  forallb PyFloat.is_space l = true -> PyFloat.ascii_form l = Some l.
Proof.
  intros H. unfold PyFloat.ascii_form.
  replace (forallb PyFloat.is_ascii l) with true; [reflexivity|].
  symmetry. induction l as [|c l IH]; [reflexivity|].
  cbn in *. apply andb_true_iff in H as [Hc Hl].
  destruct (space_facts c Hc) as (Hm & _).
  now rewrite Hm, (IH Hl).
Qed.

Lemma blank_stripped (s : string) :
  blank s = true ->
  forallb PyFloat.is_space (list_ascii_of_string (strip_commas s)) = true.
Proof.
  unfold blank. rewrite strip_commas_chars.
  induction (list_ascii_of_string s) as [|c l IH]; [reflexivity|].
  cbn. intros H. apply andb_true_iff in H as [Hc Hl].
  destruct (Ascii.eqb c ",") eqn:Hcomma; cbn; [now apply IH|].
  rewrite orb_false_r in Hc. now rewrite Hc, (IH Hl).
Qed.

(** Property X12.  A raw figure that is empty, or made of white space and commas only, is
    a parse error: [float] raises [ValueError] on what is left of it. *)
Theorem to_float_blank (raw : string) :
  blank raw = true -> to_float (CStr raw) = Raise ValueError.
Proof.
  intros H. apply blank_stripped in H.
  rewrite to_float_str. unfold py_float.
  rewrite (ascii_form_spaces _ H). unfold PyFloat.parse.
  rewrite (underscores_ok_spaces _ H None I).
  rewrite (remove_underscores_spaces _ H).
  unfold PyFloat.strip. rewrite (drop_spaces_all _ H). reflexivity.
Qed.

Lemma to_float_blank_witness : to_float (CStr " , ") = Raise ValueError.
Proof. apply (to_float_blank " , "). reflexivity. Defined.

Ltac lower_inversion c :=
  destruct c as [[] [] [] [] [] [] [] []]; vm_compute; intros H;
  try discriminate H; auto.

Lemma lower_n (c : ascii) : PyFloat.lower c = "n"%char -> c = "n"%char \/ c = "N"%char.
Proof. lower_inversion c. Qed.

Lemma lower_a (c : ascii) : PyFloat.lower c = "a"%char -> c = "a"%char \/ c = "A"%char.
Proof. lower_inversion c. Qed.

Lemma lower_i (c : ascii) : PyFloat.lower c = "i"%char -> c = "i"%char \/ c = "I"%char.
Proof. lower_inversion c. Qed.

Lemma lower_f (c : ascii) : PyFloat.lower c = "f"%char -> c = "f"%char \/ c = "F"%char.
Proof. lower_inversion c. Qed.

(** Property X13.  A raw figure that reads [nan] or [inf], in any letter case, is not a
    parse error: [float] returns the NaN or the infinity, and the conversion
    to billions leaves it so, so that it ends up in the transformed frame. *)
Theorem to_float_nan_inf (raw : string) :
  (string_of_list_ascii
     (map PyFloat.lower (list_ascii_of_string (strip_commas raw))) = "nan" ->
   to_float (CStr raw) = Return S754_nan /\
   np_round (Float.div S754_nan (Float.of_Z 1000)) 2 = S754_nan) /\
  (string_of_list_ascii
     (map PyFloat.lower (list_ascii_of_string (strip_commas raw))) = "inf" ->
   to_float (CStr raw) = Return (S754_infinity false) /\
   np_round (Float.div (S754_infinity false) (Float.of_Z 1000)) 2 =
     S754_infinity false).
Proof.
  rewrite to_float_str. unfold py_float.
  destruct (list_ascii_of_string (strip_commas raw))
    as [|c1 [|c2 [|c3 [|c4 l]]]]; cbn [map string_of_list_ascii];
    (split; intros Hw; try discriminate Hw).
  - injection Hw as H1 H2 H3.
    apply lower_n in H1, H3. apply lower_a in H2.
    destruct H1, H2, H3; subst; split; vm_compute; reflexivity.
  - injection Hw as H1 H2 H3.
    apply lower_i in H1. apply lower_n in H2. apply lower_f in H3.
    destruct H1, H2, H3; subst; split; vm_compute; reflexivity.
Qed.

Lemma to_float_nan_inf_witness :
  to_float (CStr "NaN") = Return S754_nan /\
  np_round (Float.div S754_nan (Float.of_Z 1000)) 2 = S754_nan.
Proof.
  refine (proj1 (to_float_nan_inf "NaN") _). reflexivity.
Defined.
